(** * agendaBack: the task-tracking HTTP service of [index.js]

    A shallow embedding of the Express handlers of [src/index.js], the final
    version of the service ([src/app.js] holds two earlier iterations of
    it; the later one has the same handlers).

    - A request body is a JSON object: a finite map from member names to
      JSON scalars (numbers being integers); a member that is absent reads
      as [undefined] ([None]).
    - The MySQL database behind [pool] is a pair of tables, each a list of
      rows in insertion order with its AUTO_INCREMENT counter.  A cell
      holds the value that was bound into it and [=] compares values for
      equality; the schema (column types, collations, constraints) is not
      part of the source.  The engine answers every statement: the [catch]
      branches that turn a failure of the pool into a 500 are not reached.
    - A route parameter ([:id], [:usuarioId], [:taskId]) is the integer the
      engine reads the path segment as.
    - A handler is a computation over the database that also records the
      statements it sends, in order.  Requests are served one after
      another. *)

From stdpp Require Import base strings list gmap.
From Stdlib Require Import ZArith Lia Ascii.

Local Open Scope Z_scope.

(** ** JavaScript values *)

Inductive jsval : Type :=
| JNull
| JBool (b : bool)
| JNum (n : Z)
| JStr (s : string).

#[global] Instance jsval_eq_dec : EqDecision jsval.
Proof. solve_decision. Defined.

(** ToBoolean on a defined value. *)
Definition truthy (v : jsval) : bool :=
  match v with
  | JNull => false
  | JBool b => b
  | JNum n => negb (n =? 0)
  | JStr s => negb (String.eqb s "")
  end.

(** [!x] for a destructured member [x], [None] being [undefined]. *)
Definition falsy (x : option jsval) : bool :=
  match x with
  | None => true
  | Some v => negb (truthy v)
  end.

(** The value of a member that a handler has already checked.  A handler
    binds a parameter only after such a check, so the default never ends
    up in a statement. *)
Definition val (x : option jsval) : jsval := default JNull x.

(** [x || d] *)
Definition js_or (x : option jsval) (d : jsval) : jsval :=
  if falsy x then d else val x.

(** [x !== y] on members *)
Definition strict_ne (x y : option jsval) : bool := negb (bool_decide (x = y)).

(** ** Rows and tables *)

Module Usuario.
Record t : Type := mk { id : Z; nome : jsval; email : jsval; senha : jsval }.
End Usuario.

Module Task.
Record t : Type := mk {
  id : Z;
  text : jsval;
  date : jsval;
  priority : jsval;
  folder : jsval;
  concluded : jsval;
  usuario_id : option Z   (* NULL for a task inserted by POST /tasks *)
}.
End Task.

#[global] Instance usuario_eq_dec : EqDecision Usuario.t.
Proof. solve_decision. Defined.

#[global] Instance task_eq_dec : EqDecision Task.t.
Proof. solve_decision. Defined.

Record db : Type := mkdb {
  usuario : list Usuario.t;
  tasks : list Task.t;
  usuario_auto : Z;   (* next AUTO_INCREMENT value of usuario.id *)
  tasks_auto : Z      (* next AUTO_INCREMENT value of tasks.id *)
}.

Definition empty_db : db :=
  {| usuario := []; tasks := []; usuario_auto := 1; tasks_auto := 1 |}.

(** ** Calendar dates

    A [date] cell and the bounds of [BETWEEN] are calendar days, counted
    from 1970-01-01.  The engine reads a cell written as YYYY-MM-DD. *)

Definition digit (a : Ascii.ascii) : option Z :=
  let n := Z.of_N (Ascii.N_of_ascii a) in
  if (48 <=? n) && (n <=? 57) then Some (n - 48) else None.

Definition number (ds : list Ascii.ascii) : option Z :=
  foldl (λ acc a, n ← acc; d ← digit a; Some (10 * n + d)) (Some 0) ds.

Definition leap_year (y : Z) : bool :=
  ((y mod 4 =? 0) && negb (y mod 100 =? 0)) || (y mod 400 =? 0).

Definition days_in_month (y m : Z) : Z :=
  if m =? 2 then (if leap_year y then 29 else 28)
  else if (m =? 4) || (m =? 6) || (m =? 9) || (m =? 11) then 30
  else 31.

(** Days from 1970-01-01 to the civil date [y]-[m]-[d] (proleptic
    Gregorian calendar, years counted from March). *)
Definition days_from_civil (y m d : Z) : Z :=
  let y' := if m <=? 2 then y - 1 else y in
  let era := y' / 400 in
  let yoe := y' - era * 400 in
  let doy := (153 * (if 2 <? m then m - 3 else m + 9) + 2) / 5 + d - 1 in
  let doe := yoe * 365 + yoe / 4 - yoe / 100 + doy in
  era * 146097 + doe - 719468.

Definition iso_day (s : string) : option Z :=
  match String.list_ascii_of_string s with
  | [y1; y2; y3; y4; s1; m1; m2; s2; d1; d2] =>
      if bool_decide (s1 = "-"%char) && bool_decide (s2 = "-"%char) then
        y ← number [y1; y2; y3; y4];
        m ← number [m1; m2];
        d ← number [d1; d2];
        if (1 <=? m) && (m <=? 12) && (1 <=? d) && (d <=? days_in_month y m)
        then Some (days_from_civil y m d) else None
      else None
  | _ => None
  end.

Definition sql_date (v : jsval) : option Z :=
  match v with
  | JStr s => iso_day s
  | _ => None
  end.

(** ** Statements

    One constructor per SQL text of the source, with its bound
    parameters in the order of the [?] marks. *)

Inductive statement : Type :=
| SelectUsuarioByEmail (email : jsval)
    (* SELECT * FROM usuario WHERE email = ? *)
| InsertUsuario (nome email senha : jsval)
    (* INSERT INTO usuario (nome, email, senha) VALUES (?, ?, ?) *)
| SelectTasksByUsuario (usuario_id : Z)
    (* SELECT * FROM tasks WHERE usuario_id = ? *)
| InsertTaskOwned (text date priority folder concluded : jsval) (usuario_id : Z)
    (* INSERT INTO tasks (text, date, priority, folder,concluded, usuario_id) VALUES (?, ?, ?, ?, ?, ?) *)
| SelectTaskOwned (id usuario_id : Z)
    (* SELECT * FROM tasks WHERE id = ? AND usuario_id = ? *)
| UpdateTask (text date priority folder concluded : jsval) (id : Z)
    (* UPDATE tasks SET text = ?, date = ?, priority = ?, folder = ?, concluded = ? WHERE id = ? *)
| DeleteTask (id : Z)
    (* DELETE FROM tasks WHERE id = ? *)
| InsertTask (text date priority folder concluded : jsval)
    (* INSERT INTO tasks (text, date, priority, folder, concluded) VALUES (?, ?, ?, ?, ?) *)
| SelectTasks
    (* SELECT * FROM tasks *)
| UpdateConcluded (concluded : jsval) (id : Z)
    (* UPDATE tasks SET concluded = ? WHERE id = ? *)
| SelectTasksBetween (lo hi : Z).
    (* SELECT * FROM tasks WHERE date BETWEEN ? AND ? *)

#[global] Instance statement_eq_dec : EqDecision statement.
Proof. solve_decision. Defined.

(** What [pool.query] and [pool.execute] resolve to: the rows of a SELECT,
    or the header of an INSERT, UPDATE or DELETE.  [affectedRows] counts
    the rows the WHERE clause matched (mysql2 connects with FOUND_ROWS). *)
Record result : Type := mkresult {
  rows_usuario : list Usuario.t;
  rows : list Task.t;
  insertId : Z;
  affectedRows : nat
}.

Definition usuario_rows (l : list Usuario.t) : result :=
  {| rows_usuario := l; rows := []; insertId := 0; affectedRows := 0 |}.

Definition task_rows (l : list Task.t) : result :=
  {| rows_usuario := []; rows := l; insertId := 0; affectedRows := 0 |}.

Definition header (insert_id : Z) (affected : nat) : result :=
  {| rows_usuario := []; rows := []; insertId := insert_id; affectedRows := affected |}.

Definition owned_by (id usuario_id : Z) (t : Task.t) : Prop :=
  Task.id t = id ∧ Task.usuario_id t = Some usuario_id.

#[global] Instance owned_by_dec id usuario_id t : Decision (owned_by id usuario_id t).
Proof. unfold owned_by. apply _. Defined.

Definition between (lo hi : Z) (t : Task.t) : Prop :=
  ∃ d, sql_date (Task.date t) = Some d ∧ lo ≤ d ≤ hi.

#[global] Instance between_dec lo hi t : Decision (between lo hi t).
Proof.
  unfold between. destruct (sql_date (Task.date t)) as [d|].
  - destruct (decide (lo ≤ d ≤ hi)) as [H|H].
    + left. by exists d.
    + right. intros (d' & [= <-] & H'). by apply H.
  - right. by intros (d' & [=] & _).
Defined.

Definition set_fields (text date priority folder concluded : jsval) (t : Task.t) : Task.t :=
  {| Task.id := Task.id t; Task.text := text; Task.date := date;
     Task.priority := priority; Task.folder := folder;
     Task.concluded := concluded; Task.usuario_id := Task.usuario_id t |}.

Definition set_concluded (concluded : jsval) (t : Task.t) : Task.t :=
  {| Task.id := Task.id t; Task.text := Task.text t; Task.date := Task.date t;
     Task.priority := Task.priority t; Task.folder := Task.folder t;
     Task.concluded := concluded; Task.usuario_id := Task.usuario_id t |}.

(** UPDATE ... WHERE id = ?: every row with that id, and no other. *)
Definition update_where_id (id : Z) (f : Task.t → Task.t) (l : list Task.t) : list Task.t :=
  (λ t, if decide (Task.id t = id) then f t else t) <$> l.

Definition matched (id : Z) (l : list Task.t) : nat :=
  length (filter (λ t, Task.id t = id) l).

Definition with_tasks (d : db) (l : list Task.t) : db :=
  {| usuario := usuario d; tasks := l;
     usuario_auto := usuario_auto d; tasks_auto := tasks_auto d |}.

Definition insert_task (d : db) (t : Task.t) : db :=
  {| usuario := usuario d; tasks := tasks d ++ [t];
     usuario_auto := usuario_auto d; tasks_auto := tasks_auto d + 1 |}.

Definition insert_usuario (d : db) (u : Usuario.t) : db :=
  {| usuario := usuario d ++ [u]; tasks := tasks d;
     usuario_auto := usuario_auto d + 1; tasks_auto := tasks_auto d |}.

Definition exec (st : statement) (d : db) : result * db :=
  match st with
  | SelectUsuarioByEmail email =>
      (usuario_rows (filter (λ u, Usuario.email u = email) (usuario d)), d)
  | InsertUsuario nome email senha =>
      (header (usuario_auto d) 1,
       insert_usuario d (Usuario.mk (usuario_auto d) nome email senha))
  | SelectTasksByUsuario usuario_id =>
      (task_rows (filter (λ t, Task.usuario_id t = Some usuario_id) (tasks d)), d)
  | InsertTaskOwned text date priority folder concluded usuario_id =>
      (header (tasks_auto d) 1,
       insert_task d (Task.mk (tasks_auto d) text date priority folder concluded (Some usuario_id)))
  | SelectTaskOwned id usuario_id =>
      (task_rows (filter (owned_by id usuario_id) (tasks d)), d)
  | UpdateTask text date priority folder concluded id =>
      (header 0 (matched id (tasks d)),
       with_tasks d (update_where_id id (set_fields text date priority folder concluded) (tasks d)))
  | DeleteTask id =>
      (header 0 (matched id (tasks d)),
       with_tasks d (filter (λ t, Task.id t ≠ id) (tasks d)))
  | InsertTask text date priority folder concluded =>
      (header (tasks_auto d) 1,
       insert_task d (Task.mk (tasks_auto d) text date priority folder concluded None))
  | SelectTasks =>
      (task_rows (tasks d), d)
  | UpdateConcluded concluded id =>
      (header 0 (matched id (tasks d)),
       with_tasks d (update_where_id id (set_concluded concluded) (tasks d)))
  | SelectTasksBetween lo hi =>
      (task_rows (filter (between lo hi) (tasks d)), d)
  end.

(** ** Session tokens (jsonwebtoken) *)

Module Jwt.

Record claims : Type := mkclaims { id : Z; nome : jsval; email : jsval }.

(** The signed part of a token: the payload with its registered claims. *)
Record body : Type := mkbody { claim : claims; iat : Z; exp : Z }.

Record token : Type := mktoken { signed : body; signature : string }.

Inductive verified : Type :=
| Valid (c : claims)
| Invalid.

Section Signing.

(** The keyed digest of the encoded signing input (HS256). *)
Variable mac : string → body → string.

(** [jwt.sign(payload, secretOrPrivateKey, { expiresIn })], called at the
    clock reading [now]; times are in seconds. *)
Definition sign (payload : claims) (secretOrPrivateKey : string) (expiresIn now : Z) : token :=
  let b := {| claim := payload; iat := now; exp := now + expiresIn |} in
  {| signed := b; signature := mac secretOrPrivateKey b |}.

(** Modelled from the spec: the source signs tokens and never reads one
    back, so the verifier is missing from it.  Following section 4.3,
    [verify] checks signature integrity and expiry and returns [Invalid],
    not the claims, when either check fails. *)
Definition verify (tok : token) (secret : string) (now : Z) : verified :=
  if negb (String.eqb (signature tok) (mac secret (signed tok))) then Invalid
  else if exp (signed tok) <=? now then Invalid
  else Valid (claim (signed tok)).

End Signing.

End Jwt.

(** ** Requests and responses *)

Record request : Type := mkrequest {
  headers : gmap string string;
  query : gmap string string;
  body : gmap string jsval
}.

(** The JSON objects the handlers answer with. *)
Inductive json : Type :=
| Message (message : string)
| Error (error : string)
| MessageToken (message : string) (token : Jwt.token)
| MessageTaskId (message : string) (taskId : Z)
| Tasks (tasks : list Task.t)
| TaskJson (id : Z) (text date priority folder concluded : jsval)
| Rows (rows : list Task.t).

Record response : Type := mkresponse { status : Z; sent : json }.

(** The [token] member of a response body, when it has one. *)
Definition token_field (r : response) : option Jwt.token :=
  match sent r with
  | MessageToken _ token => Some token
  | _ => None
  end.

(** ** Handlers as computations over the pool *)

Inductive event : Type :=
| TokenVerified (ok : bool)   (* a session token was decoded and checked *)
| Queried (st : statement).   (* a statement went to the pool *)

#[global] Instance event_eq_dec : EqDecision event.
Proof. solve_decision. Defined.

Definition M (A : Type) : Type := db → A * db * list event.

#[global] Instance M_ret : MRet M := λ A a d, (a, d, []).

#[global] Instance M_bind : MBind M := λ A B k m d,
  let '(a, d1, tr1) := m d in
  let '(b, d2, tr2) := k a d1 in
  (b, d2, tr1 ++ tr2).

(** [await pool.query(sql, params)] and [await pool.execute(sql, params)] *)
Definition pool_query (st : statement) : M result := λ d,
  let '(r, d') := exec st d in (r, d', [Queried st]).

(** [res.status(code).json(obj)] and [res.json(obj)] *)
Definition res_status_json (code : Z) (obj : json) : M response :=
  mret {| status := code; sent := obj |}.

Definition res_json (obj : json) : M response := res_status_json 200 obj.

Definition answer {A} (m : M A) (d : db) : A := (m d).1.1.
Definition final {A} (m : M A) (d : db) : db := (m d).1.2.
Definition trace {A} (m : M A) (d : db) : list event := (m d).2.

Definition MS_PER_DAY : Z := 86400000.

(** A request as the router sees it: the route it matches, the route
    parameters, and what its handler draws from outside (the salt of
    [bcrypt.hash], the reading of the clock). *)
Inductive call : Type :=
| PostCadastro (salt : string) (req : request)
| PostLogin (clock : Z) (req : request)
| GetUsuarioTasks (id : Z) (req : request)
| PostUsuarioTask (id : Z) (req : request)
| PutUsuarioTask (usuarioId taskId : Z) (req : request)
| DeleteUsuarioTask (usuarioId taskId : Z) (req : request)
| PostTasks (req : request)
| GetTasks (req : request)
| DeleteTasks (id : Z) (req : request)
| PatchTasks (id : Z) (req : request)
| GetTasksWeek (clock : Z) (req : request).

(** ** Stand-ins and sample data

    Simple collaborators and a few requests and stores, on which the
    handlers can be run. *)

Definition demo_hash (s salt : string) : string := String "$" s.

Definition demo_compare (s hash : string) : bool := String.eqb hash (demo_hash s "").

Definition demo_mac (key : string) (b : Jwt.body) : string := key.

(** A date-only ISO string read as midnight UTC of that day. *)
Definition utc_midnight (s : string) : option Z := (λ d, d * MS_PER_DAY) <$> iso_day s.

Definition json_request (members : gmap string jsval) : request :=
  {| headers := ∅; query := ∅; body := members |}.

Definition sample_task : Task.t :=
  Task.mk 5 (JStr "estudar") (JStr "2024-01-07") (JStr "alta") (JStr "casa") (JBool false) (Some 7).

Definition sample_db : db :=
  {| usuario := []; tasks := [sample_task]; usuario_auto := 1; tasks_auto := 6 |}.

(** The sample task of user 7 beside a task of user 8. *)
Definition shared_db : db :=
  {| usuario := [];
     tasks := [sample_task;
               Task.mk 6 (JStr "correr") (JStr "2024-01-09") (JStr "media") (JStr "rua")
                 (JBool false) (Some 8)];
     usuario_auto := 1; tasks_auto := 7 |}.

Definition sample_week : request :=
  {| headers := ∅; query := {[ "start" := "2024-01-07" ]}; body := ∅ |}.

(** A zone of one offset; and America/New_York around 10 March 2024, when
    its clocks went from 02:00 to 03:00: five hours behind UTC until
    07:00 UTC of that day, four hours behind after it.  A local time
    within the hour that was skipped is read with the offset before the
    change. *)
Definition fixed_zone (offset : Z) : Z → bool → Z := λ _ _, offset.

Definition utc_zone : Z → bool → Z := fixed_zone 0.

Definition new_york_march_2024 (t : Z) (isUTC : bool) : Z :=
  if isUTC then (if t <? 1710054000000 then -18000000 else -14400000)
  else (if t <? 1710039600000 then -18000000 else -14400000).

(** Four tasks dated around the week that is asked for from
    2024-03-05. *)
Definition dated (id : Z) (date : string) : Task.t :=
  Task.mk id (JStr "tarefa") (JStr date) (JStr "alta") (JStr "default") (JBool false) None.

Definition march_db : db :=
  {| usuario := [];
     tasks := [dated 1 "2024-03-04"; dated 2 "2024-03-05"; dated 3 "2024-03-10";
               dated 4 "2024-03-11"];
     usuario_auto := 1; tasks_auto := 5 |}.

Definition march_week : request :=
  {| headers := ∅; query := {[ "start" := "2024-03-05" ]}; body := ∅ |}.

Definition sample_claims : Jwt.claims :=
  {| Jwt.id := 1; Jwt.nome := JStr "Ana"; Jwt.email := JStr "a@x.com" |}.

Definition sample_update : request :=
  json_request
    (<["text" := JStr "ler"]> (<["date" := JStr "2024-01-08"]> (<["priority" := JStr "baixa"]>
      (<["folder" := JStr "casa"]> {[ "concluded" := JBool true ]})))).

Definition sample_create : request :=
  json_request
    (<["text" := JStr "ler"]> (<["date" := JStr "2024-01-08"]> {[ "priority" := JStr "baixa" ]})).

Definition completed_true : request := json_request {[ "completed" := JBool true ]}.

Definition concluded_true : request := json_request {[ "concluded" := JBool true ]}.

Definition sample_cadastro : request :=
  json_request
    (<["nome" := JStr "Ana"]> (<["email" := JStr "a@x.com"]> (<["senha" := JStr "secret"]>
      {[ "confirmar_senha" := JStr "secret" ]}))).

Definition sample_login (senha : string) : request :=
  json_request (<["email" := JStr "a@x.com"]> {[ "senha" := JStr senha ]}).

Section Service.

(** [bcrypt.hash(s, 10)] with the salt it drew, and [bcrypt.compare]. *)
Variable bcrypt_hash : string → string → string.
Variable bcrypt_compare : string → string → bool.

(** The digest behind [jwt.sign]. *)
Variable jwt_mac : string → Jwt.body → string.

(** [new Date(s)] as milliseconds since the epoch, [None] for an Invalid
    Date. *)
Variable Date_parse : string → option Z.

(** The time zone of the process: [LocalTZA t isUTC] is the offset in
    force at [t] (local time minus UTC, in milliseconds), [t] being an
    instant when [isUTC] holds and a local time otherwise (ECMA-262,
    LocalTZA).  Where clocks are changed during the year the offset
    depends on [t]. *)
Variable LocalTZA : Z → bool → Z.

(** POST /cadastro *)
Definition cadastro (salt : string) (req : request) : M response :=
  let nome := body req !! "nome" in
  let email := body req !! "email" in
  let senha := body req !! "senha" in
  let confirmar_senha := body req !! "confirmar_senha" in
  if falsy nome || falsy email || falsy senha || falsy confirmar_senha then
    res_status_json 400 (Message "Todos os campos são obrigatórios.")
  else if strict_ne senha confirmar_senha then
    res_status_json 400 (Message "As senhas não coincidem.")
  else
    found ← pool_query (SelectUsuarioByEmail (val email));
    if (0 <? length (rows_usuario found))%nat then
      res_status_json 400 (Message "E-mail já cadastrado.")
    else
      match val senha with
      | JStr s =>
          let hashedPassword := bcrypt_hash s salt in
          _ ← pool_query (InsertUsuario (val nome) (val email) (JStr hashedPassword));
          res_status_json 201 (Message "Usuário cadastrado com sucesso!")
      | _ =>
          (* bcrypt.hash rejects a password that is not a string *)
          res_status_json 500 (Message "Erro interno do servidor.")
      end.

(** POST /login, at the clock reading [clock] (milliseconds) *)
Definition login (clock : Z) (req : request) : M response :=
  let email := body req !! "email" in
  let senha := body req !! "senha" in
  if falsy email || falsy senha then
    res_status_json 400 (Message "E-mail e senha são obrigatórios.")
  else
    found ← pool_query (SelectUsuarioByEmail (val email));
    match rows_usuario found with
    | [] => res_status_json 401 (Message "E-mail não encontrado.")
    | usuario :: _ =>
        match val senha, Usuario.senha usuario with
        | JStr s, JStr hash =>
            let senhaCorreta := bcrypt_compare s hash in
            if negb senhaCorreta then
              res_status_json 401 (Message "Senha incorreta.")
            else
              let token :=
                Jwt.sign jwt_mac
                  {| Jwt.id := Usuario.id usuario; Jwt.nome := Usuario.nome usuario;
                     Jwt.email := Usuario.email usuario |}
                  "seu_segredo" 3600 (clock / 1000) in
              res_status_json 200 (MessageToken "Login bem-sucedido!" token)
        | _, _ =>
            (* bcrypt.compare rejects arguments that are not strings *)
            res_status_json 500 (Message "Erro interno do servidor.")
        end
    end.

(** GET /usuario/:id/tasks *)
Definition get_usuario_tasks (id : Z) (req : request) : M response :=
  found ← pool_query (SelectTasksByUsuario id);
  if (length (rows found) =? 0)%nat then
    res_status_json 404 (Message "Nenhuma tarefa encontrada para este usuário.")
  else
    res_status_json 200 (Tasks (rows found)).

(** POST /usuario/:id/task *)
Definition post_usuario_task (id : Z) (req : request) : M response :=
  let text := body req !! "text" in
  let date := body req !! "date" in
  let priority := body req !! "priority" in
  let folder := body req !! "folder" in
  if falsy text || falsy date || falsy priority || falsy folder then
    res_status_json 400 (Message "Todos os campos são obrigatórios.")
  else
    let concluded := JBool false in
    result ← pool_query
      (InsertTaskOwned (val text) (val date) (val priority) (val folder) concluded id);
    res_status_json 201 (MessageTaskId "Tarefa criada com sucesso!" (insertId result)).

(** PUT /usuario/:usuarioId/task/:taskId *)
Definition put_usuario_task (usuarioId taskId : Z) (req : request) : M response :=
  let text := body req !! "text" in
  let date := body req !! "date" in
  let priority := body req !! "priority" in
  let folder := body req !! "folder" in
  let concluded := body req !! "concluded" in
  if falsy text || falsy date || falsy priority || falsy folder
     || bool_decide (concluded = None) then
    res_status_json 400 (Message "Todos os campos são obrigatórios.")
  else
    task ← pool_query (SelectTaskOwned taskId usuarioId);
    if (length (rows task) =? 0)%nat then
      res_status_json 404 (Message "Tarefa não encontrada para este usuário.")
    else
      _ ← pool_query
        (UpdateTask (val text) (val date) (val priority) (val folder) (val concluded) taskId);
      res_status_json 200 (Message "Tarefa atualizada com sucesso!").

(** DELETE /usuario/:usuarioId/task/:taskId *)
Definition delete_usuario_task (usuarioId taskId : Z) (req : request) : M response :=
  task ← pool_query (SelectTaskOwned taskId usuarioId);
  if (length (rows task) =? 0)%nat then
    res_status_json 404 (Message "Tarefa não encontrada para este usuário.")
  else
    _ ← pool_query (DeleteTask taskId);
    res_status_json 200 (Message "Tarefa deletada com sucesso!").

(** POST /tasks *)
Definition post_tasks (req : request) : M response :=
  let text := body req !! "text" in
  let date := body req !! "date" in
  let priority := body req !! "priority" in
  let folder := body req !! "folder" in
  if falsy text || falsy date || falsy priority then
    res_status_json 400 (Error "Faltam campos obrigatórios (text, date, priority).")
  else
    let folderValue := js_or folder (JStr "default") in
    let concluded := JBool false in
    result ← pool_query
      (InsertTask (val text) (val date) (val priority) folderValue concluded);
    res_status_json 201
      (TaskJson (insertId result) (val text) (val date) (val priority) folderValue concluded).

(** GET /tasks *)
Definition get_tasks (req : request) : M response :=
  found ← pool_query SelectTasks;
  res_json (Rows (rows found)).

(** DELETE /tasks/:id *)
Definition delete_task (id : Z) (req : request) : M response :=
  result ← pool_query (DeleteTask id);
  if (affectedRows result =? 0)%nat then
    res_status_json 404 (Error "Tarefa não encontrada.")
  else
    res_json (Message "Tarefa deletada com sucesso.").

(** PATCH /tasks/:id *)
Definition patch_task (id : Z) (req : request) : M response :=
  let concluded := body req !! "concluded" in
  if bool_decide (concluded = None) then
    res_status_json 400 (Error "Campo concluded é obrigatório para atualização.")
  else
    result ← pool_query (UpdateConcluded (val concluded) id);
    if (affectedRows result =? 0)%nat then
      res_status_json 404 (Error "Tarefa não encontrada.")
    else
      res_json (Message "Tarefa atualizada com sucesso.").

(** A [Date] is its time value, the milliseconds since the epoch.  The
    day number, the time within the day and the weekday of a time value
    (Sunday being 0; 1970-01-01 was a Thursday), and the time value of a
    day and a time within it (ECMA-262: Day, TimeWithinDay, WeekDay,
    MakeDate). *)
Definition Day (t : Z) : Z := t / MS_PER_DAY.
Definition TimeWithinDay (t : Z) : Z := t mod MS_PER_DAY.
Definition WeekDay (t : Z) : Z := (Day t + 4) mod 7.
Definition MakeDate (day time : Z) : Z := day * MS_PER_DAY + time.

(** The local time of an instant, and the instant of a local time. *)
Definition LocalTime (t : Z) : Z := t + LocalTZA t true.
Definition UTC (t : Z) : Z := t - LocalTZA t false.

(** [d.getDay()]: the weekday of [d] on the local calendar. *)
Definition getDay (d : Z) : Z := WeekDay (LocalTime d).

(** [d.setDate(d.getDate() + n)].  The local time of [d] is taken apart,
    the day of the month is moved by [n] and the time within the day is
    kept; MakeDay counts the days on from the first of the month, so the
    day number moves by [n], past the ends of months too.  The local time
    put together is then read back as an instant, with the offset in
    force at that local time. *)
Definition setDate_plus (d n : Z) : Z :=
  let t := LocalTime d in
  UTC (MakeDate (Day t + n) (TimeWithinDay t)).

(** [d.toISOString().split('T')[0]], as the calendar day it spells: the
    day of [d] in UTC. *)
Definition formatDate (d : Z) : Z := Day d.

(** GET /tasks/week, at the clock reading [clock] (milliseconds) *)
Definition get_tasks_week (clock : Z) (req : request) : M response :=
  let start := query req !! "start" in
  let startDate :=
    match start with
    | Some s => if negb (String.eqb s "") then Date_parse s
                else Some (setDate_plus clock (- getDay clock))
    | None => Some (setDate_plus clock (- getDay clock))
    end in
  let endDate := (λ d, setDate_plus d 6) <$> startDate in
  match startDate, endDate with
  | Some startDate, Some endDate =>
      found ← pool_query (SelectTasksBetween (formatDate startDate) (formatDate endDate));
      res_json (Rows (rows found))
  | _, _ =>
      (* toISOString throws on an Invalid Date, inside the try block *)
      res_status_json 500 (Error "Erro ao buscar as tarefas da semana.")
  end.

(** The routes of [app]. *)
Definition handle (c : call) : M response :=
  match c with
  | PostCadastro salt req => cadastro salt req
  | PostLogin clock req => login clock req
  | GetUsuarioTasks id req => get_usuario_tasks id req
  | PostUsuarioTask id req => post_usuario_task id req
  | PutUsuarioTask usuarioId taskId req => put_usuario_task usuarioId taskId req
  | DeleteUsuarioTask usuarioId taskId req => delete_usuario_task usuarioId taskId req
  | PostTasks req => post_tasks req
  | GetTasks req => get_tasks req
  | DeleteTasks id req => delete_task id req
  | PatchTasks id req => patch_task id req
  | GetTasksWeek clock req => get_tasks_week clock req
  end.

(** The store after serving a sequence of requests, one after another. *)
Definition serve (history : list call) (d : db) : db :=
  foldl (λ d c, final (handle c) d) d history.

(** ** Vocabulary of the properties *)

(** No row of [tasks] has this id. *)
Definition no_such_task (id : Z) (d : db) : Prop :=
  ∀ t, t ∈ tasks d → Task.id t ≠ id.

(** Some row has this id, and no row with this id refers to this owner. *)
Definition owned_by_another (id usuario_id : Z) (d : db) : Prop :=
  (∃ t, t ∈ tasks d ∧ Task.id t = id)
  ∧ ∀ t, t ∈ tasks d → Task.id t = id → Task.usuario_id t ≠ Some usuario_id.

Definition not_found_for_owner : response :=
  {| status := 404; sent := Message "Tarefa não encontrada para este usuário." |}.

(** The body of an update carries every field the handler asks for. *)
Definition update_fields_given (req : request) : Prop :=
  falsy (body req !! "text") = false
  ∧ falsy (body req !! "date") = false
  ∧ falsy (body req !! "priority") = false
  ∧ falsy (body req !! "folder") = false
  ∧ body req !! "concluded" ≠ None.

(** The same request under other headers. *)
Definition with_headers (h : gmap string string) (req : request) : request :=
  {| headers := h; query := query req; body := body req |}.

(** Every statement of the trace comes after a successful token check. *)
Definition verified_before_pool (tr : list event) : Prop :=
  ∀ (i : nat) st, tr !! i = Some (Queried st) →
    ∃ j : nat, (j < i)%nat ∧ tr !! j = Some (TokenVerified true).

(** Somewhere in the history a registration with this e-mail and this
    password was accepted. *)
Definition registered (history : list call) (email : jsval) (s : string) : Prop :=
  ∃ before salt req after,
    history = before ++ PostCadastro salt req :: after
    ∧ body req !! "email" = Some email
    ∧ body req !! "senha" = Some (JStr s)
    ∧ status (answer (cadastro salt req) (serve before empty_db)) = 201.

(** The body of a registration passes the handler's two field checks. *)
Definition registration_fields_given (req : request) : Prop :=
  falsy (body req !! "nome") = false
  ∧ falsy (body req !! "email") = false
  ∧ falsy (body req !! "senha") = false
  ∧ falsy (body req !! "confirmar_senha") = false
  ∧ body req !! "senha" = body req !! "confirmar_senha".

Definition emails (d : db) : list jsval := Usuario.email <$> usuario d.

(** The ids of the tasks are pairwise distinct and below the counter. *)
Definition task_ids_fresh (d : db) : Prop :=
  NoDup (Task.id <$> tasks d) ∧ ∀ t, t ∈ tasks d → Task.id t < tasks_auto d.

(** The row that the UPDATE of a PUT with this body makes of a row. *)
Definition put_row (req : request) : Task.t → Task.t :=
  set_fields (val (body req !! "text")) (val (body req !! "date"))
    (val (body req !! "priority")) (val (body req !! "folder"))
    (val (body req !! "concluded")).

(** The body of an owner-scoped creation carries its four fields. *)
Definition create_fields_given (req : request) : Prop :=
  falsy (body req !! "text") = false
  ∧ falsy (body req !! "date") = false
  ∧ falsy (body req !! "priority") = false
  ∧ falsy (body req !! "folder") = false.

(** The task that POST /usuario/:id/task inserts for this body. *)
Definition created_for (id : Z) (req : request) (d : db) : Task.t :=
  Task.mk (tasks_auto d) (val (body req !! "text")) (val (body req !! "date"))
    (val (body req !! "priority")) (val (body req !! "folder")) (JBool false) (Some id).

(** The task that POST /tasks inserts for this body. *)
Definition created_unowned (req : request) (d : db) : Task.t :=
  Task.mk (tasks_auto d) (val (body req !! "text")) (val (body req !! "date"))
    (val (body req !! "priority")) (js_or (body req !! "folder") (JStr "default"))
    (JBool false) None.

(** The ids of the users are pairwise distinct and below the counter. *)
Definition usuario_ids_fresh (d : db) : Prop :=
  NoDup (Usuario.id <$> usuario d) ∧ ∀ u, u ∈ usuario d → Usuario.id u < usuario_auto d.

(** The routes whose handlers send no INSERT, UPDATE or DELETE. *)
Definition reads_only (c : call) : Prop :=
  match c with
  | PostLogin _ _ | GetUsuarioTasks _ _ | GetTasks _ | GetTasksWeek _ _ => True
  | _ => False
  end.

(** The zone keeps one offset all year round. *)
Definition fixed_offset : Prop := ∀ t b t' b', LocalTZA t b = LocalTZA t' b'.

(** * Properties *)

(** ** The engine *)

Lemma with_tasks_same (d : db) : with_tasks d (tasks d) = d.
Proof. by destruct d. Qed.

Lemma update_where_id_lookup id f (l : list Task.t) (i : nat) :
  update_where_id id f l !! i
  = (λ t, if decide (Task.id t = id) then f t else t) <$> l !! i.
Proof. unfold update_where_id. apply list_lookup_fmap. Qed.

Lemma update_where_id_absent id f (l : list Task.t) :
  (∀ t, t ∈ l → Task.id t ≠ id) → update_where_id id f l = l.
Proof.
  unfold update_where_id. induction l as [|t l IH]; intros Hl; [done|].
  rewrite fmap_cons, IH.
  - rewrite decide_False; [done|]. apply Hl. left.
  - intros t' Ht'. apply Hl. by right.
Qed.

Lemma matched_zero id (l : list Task.t) :
  matched id l = 0%nat ↔ ∀ t, t ∈ l → Task.id t ≠ id.
Proof.
  unfold matched. split.
  - intros H t Ht Hid. apply length_zero_iff_nil in H.
    by eapply (filter_nil_not_elem_of _ _ t H).
  - intros H. apply length_zero_iff_nil.
    induction l as [|t l IH]; [done|].
    rewrite filter_cons_False; [|apply H; left].
    apply IH. intros t' Ht'. apply H. by right.
Qed.

Lemma filter_absent {A} (P : A → Prop) `{∀ x, Decision (P x)} (l : list A) :
  (∀ x, x ∈ l → ¬ P x) → filter P l = [].
Proof.
  induction l as [|x l IH]; intros Hl; [done|].
  rewrite filter_cons_False; [|apply Hl; left].
  apply IH. intros y Hy. apply Hl. by right.
Qed.

Lemma filter_email_found (l : list Usuario.t) (u : Usuario.t) :
  (0 <? length (filter (λ x, Usuario.email x = Usuario.email u) (l ++ [u])))%nat = true.
Proof.
  rewrite filter_app, filter_cons_True by done.
  rewrite length_app. apply Nat.ltb_lt. cbn [length]. lia.
Qed.

(** In a list whose keys are pairwise distinct, a key selects its row. *)
Lemma filter_distinct_key {A B} `{EqDecision B} (f : A → B) (l1 l2 : list A) (x : A) :
  NoDup (f <$> (l1 ++ x :: l2)) →
  filter (λ y, f y = f x) (l1 ++ x :: l2) = [x].
Proof.
  rewrite fmap_app, fmap_cons. intros Hnd.
  apply NoDup_app in Hnd as (_ & Hl1 & Hnd).
  apply NoDup_cons in Hnd as [Hl2 _].
  rewrite filter_app, filter_cons_True by done.
  rewrite (filter_absent _ l1), (filter_absent _ l2); [done| |].
  - intros y Hy Heq. apply Hl2. rewrite <- Heq. by apply list_elem_of_fmap_2.
  - intros y Hy Heq. apply (Hl1 (f y)); [by apply list_elem_of_fmap_2|].
    rewrite Heq. left.
Qed.

Lemma val_Some (v : jsval) : val (Some v) = v.
Proof. reflexivity. Qed.

Lemma falsy_false_Some (x : option jsval) :
  falsy x = false → ∃ v, x = Some v ∧ truthy v = true.
Proof.
  destruct x as [v|]; [|done]. cbn. intros H. exists v. split; [done|].
  by apply negb_false_iff.
Qed.

(** ** Running the handlers *)

(** Unfolds the binds of a handler down to the statements it sends. *)
Ltac run_pool :=
  unfold mbind, M_bind, pool_query, res_json, res_status_json, mret, M_ret;
  cbn -[Nat.ltb Nat.eqb].

Ltac case_if :=
  match goal with |- context [if ?c then _ else _] => destruct c eqn:? end.

Lemma patch_task_absent id req d :
  body req !! "concluded" = None →
  patch_task id req d
  = ({| status := 400; sent := Error "Campo concluded é obrigatório para atualização." |},
     d, []).
Proof. intros H. unfold patch_task. by rewrite H. Qed.

Lemma patch_task_given id req d v :
  body req !! "concluded" = Some v →
  patch_task id req d
  = (if (matched id (tasks d) =? 0)%nat
     then {| status := 404; sent := Error "Tarefa não encontrada." |}
     else {| status := 200; sent := Message "Tarefa atualizada com sucesso." |},
     with_tasks d (update_where_id id (set_concluded v) (tasks d)),
     [Queried (UpdateConcluded v id)]).
Proof.
  intros H. unfold patch_task. rewrite H. run_pool.
  by destruct (matched id (tasks d) =? 0)%nat.
Qed.

Lemma delete_usuario_task_run usuarioId taskId req d :
  delete_usuario_task usuarioId taskId req d
  = if (length (filter (owned_by taskId usuarioId) (tasks d)) =? 0)%nat
    then (not_found_for_owner, d, [Queried (SelectTaskOwned taskId usuarioId)])
    else ({| status := 200; sent := Message "Tarefa deletada com sucesso!" |},
          with_tasks d (filter (λ t, Task.id t ≠ taskId) (tasks d)),
          [Queried (SelectTaskOwned taskId usuarioId); Queried (DeleteTask taskId)]).
Proof.
  unfold delete_usuario_task. run_pool.
  by destruct (length (filter (owned_by taskId usuarioId) (tasks d)) =? 0)%nat.
Qed.

Lemma put_usuario_task_run usuarioId taskId req d :
  put_usuario_task usuarioId taskId req d
  = if falsy (body req !! "text") || falsy (body req !! "date")
       || falsy (body req !! "priority") || falsy (body req !! "folder")
       || bool_decide (body req !! "concluded" = None)
    then ({| status := 400; sent := Message "Todos os campos são obrigatórios." |}, d, [])
    else if (length (filter (owned_by taskId usuarioId) (tasks d)) =? 0)%nat
    then (not_found_for_owner, d, [Queried (SelectTaskOwned taskId usuarioId)])
    else ({| status := 200; sent := Message "Tarefa atualizada com sucesso!" |},
          with_tasks d
            (update_where_id taskId
               (set_fields (val (body req !! "text")) (val (body req !! "date"))
                  (val (body req !! "priority")) (val (body req !! "folder"))
                  (val (body req !! "concluded")))
               (tasks d)),
          [Queried (SelectTaskOwned taskId usuarioId);
           Queried (UpdateTask (val (body req !! "text")) (val (body req !! "date"))
                      (val (body req !! "priority")) (val (body req !! "folder"))
                      (val (body req !! "concluded")) taskId)]).
Proof.
  unfold put_usuario_task.
  destruct (falsy (body req !! "text") || falsy (body req !! "date")
            || falsy (body req !! "priority") || falsy (body req !! "folder")
            || bool_decide (body req !! "concluded" = None)); [done|].
  run_pool.
  by destruct (length (filter (owned_by taskId usuarioId) (tasks d)) =? 0)%nat.
Qed.

Lemma post_tasks_run req d :
  post_tasks req d
  = if falsy (body req !! "text") || falsy (body req !! "date")
       || falsy (body req !! "priority")
    then ({| status := 400;
             sent := Error "Faltam campos obrigatórios (text, date, priority)." |}, d, [])
    else
      let text := val (body req !! "text") in
      let date := val (body req !! "date") in
      let priority := val (body req !! "priority") in
      let folderValue := js_or (body req !! "folder") (JStr "default") in
      ({| status := 201;
          sent := TaskJson (tasks_auto d) text date priority folderValue (JBool false) |},
       insert_task d (Task.mk (tasks_auto d) text date priority folderValue (JBool false) None),
       [Queried (InsertTask text date priority folderValue (JBool false))]).
Proof. unfold post_tasks. by destruct (_ || _). Qed.

Lemma cadastro_run salt req d :
  cadastro salt req d
  = if falsy (body req !! "nome") || falsy (body req !! "email")
       || falsy (body req !! "senha") || falsy (body req !! "confirmar_senha")
    then ({| status := 400; sent := Message "Todos os campos são obrigatórios." |}, d, [])
    else if strict_ne (body req !! "senha") (body req !! "confirmar_senha")
    then ({| status := 400; sent := Message "As senhas não coincidem." |}, d, [])
    else
      let email := val (body req !! "email") in
      let lookup := Queried (SelectUsuarioByEmail email) in
      if (0 <? length (filter (λ u, Usuario.email u = email) (usuario d)))%nat
      then ({| status := 400; sent := Message "E-mail já cadastrado." |}, d, [lookup])
      else
        match val (body req !! "senha") with
        | JStr s =>
            let nome := val (body req !! "nome") in
            let hashedPassword := JStr (bcrypt_hash s salt) in
            ({| status := 201; sent := Message "Usuário cadastrado com sucesso!" |},
             insert_usuario d (Usuario.mk (usuario_auto d) nome email hashedPassword),
             [lookup; Queried (InsertUsuario nome email hashedPassword)])
        | _ => ({| status := 500; sent := Message "Erro interno do servidor." |}, d, [lookup])
        end.
Proof.
  unfold cadastro.
  destruct (_ || _); [done|].
  destruct (strict_ne _ _); [done|].
  run_pool.
  destruct (0 <? length (filter (λ u, Usuario.email u = val (body req !! "email"))
                          (usuario d)))%nat; [done|].
  by destruct (val (body req !! "senha")).
Qed.

Lemma login_run clock req d :
  login clock req d
  = if falsy (body req !! "email") || falsy (body req !! "senha")
    then ({| status := 400; sent := Message "E-mail e senha são obrigatórios." |}, d, [])
    else
      let email := val (body req !! "email") in
      let lookup := [Queried (SelectUsuarioByEmail email)] in
      match filter (λ u, Usuario.email u = email) (usuario d) with
      | [] => ({| status := 401; sent := Message "E-mail não encontrado." |}, d, lookup)
      | usuario :: _ =>
          match val (body req !! "senha"), Usuario.senha usuario with
          | JStr s, JStr hash =>
              if negb (bcrypt_compare s hash)
              then ({| status := 401; sent := Message "Senha incorreta." |}, d, lookup)
              else
                ({| status := 200;
                    sent :=
                      MessageToken "Login bem-sucedido!"
                        (Jwt.sign jwt_mac
                           {| Jwt.id := Usuario.id usuario; Jwt.nome := Usuario.nome usuario;
                              Jwt.email := Usuario.email usuario |}
                           "seu_segredo" 3600 (clock / 1000)) |},
                 d, lookup)
          | _, _ =>
              ({| status := 500; sent := Message "Erro interno do servidor." |}, d, lookup)
          end
      end.
Proof.
  unfold login. destruct (_ || _); [done|].
  run_pool.
  destruct (filter _ (usuario d)) as [|u others]; [done|].
  destruct (val (body req !! "senha")); try done.
  destruct (Usuario.senha u); try done.
  by destruct (negb _).
Qed.

(** Moving the day number keeps the time within the day. *)
Lemma MakeDate_plus (t n : Z) :
  MakeDate (Day t + n) (TimeWithinDay t) = t + n * MS_PER_DAY.
Proof.
  unfold MakeDate, Day, TimeWithinDay.
  pose proof (Z.div_mod t MS_PER_DAY) as Hsplit.
  assert (MS_PER_DAY ≠ 0) by (by unfold MS_PER_DAY). specialize (Hsplit ltac:(done)).
  lia.
Qed.

(** [setDate] moves the instant by whole days and by the change of the
    offset between the two local times. *)
Lemma setDate_plus_offsets (d n : Z) :
  setDate_plus d n
  = d + n * MS_PER_DAY
    + (LocalTZA d true - LocalTZA (LocalTime d + n * MS_PER_DAY) false).
Proof.
  unfold setDate_plus. cbv zeta. rewrite MakeDate_plus. unfold UTC, LocalTime. lia.
Qed.

Lemma setDate_plus_fixed (d n : Z) : fixed_offset → setDate_plus d n = d + n * MS_PER_DAY.
Proof.
  intros Hfixed. rewrite setDate_plus_offsets.
  rewrite (Hfixed (LocalTime d + n * MS_PER_DAY) false d true). lia.
Qed.

Lemma formatDate_plus (d n : Z) :
  fixed_offset → formatDate (setDate_plus d n) = formatDate d + n.
Proof.
  intros Hfixed. rewrite setDate_plus_fixed by done.
  unfold formatDate, Day, MS_PER_DAY. by rewrite Z.div_add.
Qed.

Lemma get_tasks_week_run clock req d :
  get_tasks_week clock req d
  = ({| status := 500; sent := Error "Erro ao buscar as tarefas da semana." |}, d, [])
  ∨ ∃ startDate,
      (∀ s, query req !! "start" = Some s → s ≠ "" → Date_parse s = Some startDate)
      ∧ (query req !! "start" = None ∨ query req !! "start" = Some "" →
         startDate = setDate_plus clock (- getDay clock))
      ∧ get_tasks_week clock req d
        = ({| status := 200;
              sent := Rows (filter (between (formatDate startDate)
                                      (formatDate (setDate_plus startDate 6)))
                              (tasks d)) |},
           d,
           [Queried (SelectTasksBetween (formatDate startDate)
                       (formatDate (setDate_plus startDate 6)))]).
Proof.
  unfold get_tasks_week.
  destruct (query req !! "start") as [s|] eqn:Hstart.
  - destruct (String.eqb s "") eqn:Hs; cbn [negb].
    + right. exists (setDate_plus clock (- getDay clock)). split; [|done].
      intros s' [= <-] Hne. by apply String.eqb_neq in Hne; rewrite Hs in Hne.
    + destruct (Date_parse s) as [startDate|] eqn:Hparse.
      * right. exists startDate. split; [by intros s' [= <-] _|]. split; [|done].
        intros [[=]|[= ->]]. by rewrite String.eqb_refl in Hs.
      * by left.
  - right. by exists (setDate_plus clock (- getDay clock)).
Qed.

(** ** Serving requests *)

Lemma registration_fields_given_check req :
  registration_fields_given req ↔
  (falsy (body req !! "nome") || falsy (body req !! "email")
   || falsy (body req !! "senha") || falsy (body req !! "confirmar_senha") = false
   ∧ strict_ne (body req !! "senha") (body req !! "confirmar_senha") = false).
Proof.
  unfold registration_fields_given, strict_ne.
  rewrite !orb_false_iff, negb_false_iff, bool_decide_eq_true. tauto.
Qed.

(** What a registration does to the store: nothing, unless it answers
    201, and then it appends one user under an e-mail no user had. *)
Lemma cadastro_cases salt req d :
  (status (answer (cadastro salt req) d) ≠ 201 ∧ final (cadastro salt req) d = d)
  ∨ (∃ nome email s,
       body req !! "nome" = Some nome ∧ truthy nome = true
       ∧ body req !! "email" = Some email ∧ truthy email = true
       ∧ body req !! "senha" = Some (JStr s) ∧ truthy (JStr s) = true
       ∧ body req !! "confirmar_senha" = Some (JStr s)
       ∧ (email ∉ emails d)
       ∧ status (answer (cadastro salt req) d) = 201
       ∧ final (cadastro salt req) d
         = insert_usuario d
             (Usuario.mk (usuario_auto d) nome email (JStr (bcrypt_hash s salt)))).
Proof.
  unfold answer, final. rewrite cadastro_run.
  destruct (_ || _) eqn:Hfields; [by left|].
  destruct (strict_ne _ _) eqn:Hsame; [by left|].
  cbn zeta.
  destruct (0 <? length (filter (λ u, Usuario.email u = val (body req !! "email"))
                          (usuario d)))%nat eqn:Hfound; [by left|].
  apply orb_false_iff in Hfields as [Hfields Hconf].
  apply orb_false_iff in Hfields as [Hfields Hsenha].
  apply orb_false_iff in Hfields as [Hnome Hemail].
  apply falsy_false_Some in Hnome as (nome & Hnome & Hnome_t).
  apply falsy_false_Some in Hemail as (email & Hemail & Hemail_t).
  apply falsy_false_Some in Hsenha as (senha & Hsenha & Hsenha_t).
  unfold strict_ne in Hsame. apply negb_false_iff, bool_decide_eq_true in Hsame.
  rewrite Hnome, Hemail, Hsenha. cbn.
  destruct senha as [|b|n|s]; try by left.
  right. exists nome, email, s. rewrite <- Hsame, Hsenha.
  repeat split; try done.
  rewrite Hemail in Hfound. cbn -[Nat.ltb] in Hfound.
  apply Nat.ltb_ge, Nat.le_0_r, length_zero_iff_nil in Hfound.
  unfold emails. intros Hin. apply list_elem_of_fmap in Hin as (u & Hu & Hin).
  by apply (filter_nil_not_elem_of _ _ u Hfound).
Qed.

Lemma cadastro_keeps_emails_distinct salt req d :
  NoDup (emails d) → NoDup (emails (final (cadastro salt req) d)).
Proof.
  intros Hd.
  destruct (cadastro_cases salt req d)
    as [[_ ->]|(nome & email & s & _ & _ & _ & _ & _ & _ & _ & Hfresh & _ & ->)];
    [done|].
  unfold emails. cbn. rewrite fmap_app. apply NoDup_app. split; [done|]. split.
  - intros e He Hin. apply list_elem_of_singleton in Hin. by subst e.
  - apply NoDup_singleton.
Qed.

Lemma cadastro_extends salt req d :
  ∃ extra, usuario (final (cadastro salt req) d) = usuario d ++ extra.
Proof.
  destruct (cadastro_cases salt req d)
    as [[_ ->]|(nome & email & s & _ & _ & _ & _ & _ & _ & _ & _ & _ & ->)].
  - exists []. by rewrite app_nil_r.
  - by eexists.
Qed.

(** Only a registration writes to the users. *)
Lemma handle_usuario c d :
  (∃ salt req, c = PostCadastro salt req)
  ∨ usuario (final (handle c) d) = usuario d.
Proof.
  destruct c as [salt req|clock req|id req|id req|uid tid req|uid tid req
                 |req|req|id req|id req|clock req];
    [left; by eauto|right..]; unfold final; cbn [handle].
  - rewrite login_run. cbv zeta. by repeat case_match.
  - unfold get_usuario_tasks. run_pool. by case_if.
  - unfold post_usuario_task. by case_if.
  - rewrite put_usuario_task_run. by repeat case_if.
  - rewrite delete_usuario_task_run. by case_if.
  - rewrite post_tasks_run. by case_if.
  - done.
  - unfold delete_task. run_pool. by case_if.
  - destruct (body req !! "concluded") as [v|] eqn:Hv.
    + by rewrite (patch_task_given _ _ _ v Hv).
    + by rewrite patch_task_absent.
  - by destruct (get_tasks_week_run clock req d) as [->|(startDate & _ & _ & ->)].
Qed.

Lemma handle_keeps_emails_distinct c d :
  NoDup (emails d) → NoDup (emails (final (handle c) d)).
Proof.
  intros Hd. destruct (handle_usuario c d) as [(salt & req & ->)|Hsame].
  - by apply cadastro_keeps_emails_distinct.
  - unfold emails. by rewrite Hsame.
Qed.

Lemma handle_extends c d :
  ∃ extra, usuario (final (handle c) d) = usuario d ++ extra.
Proof.
  destruct (handle_usuario c d) as [(salt & req & ->)|Hsame].
  - apply cadastro_extends.
  - exists []. by rewrite app_nil_r.
Qed.

Lemma serve_app h1 h2 d : serve (h1 ++ h2) d = serve h2 (serve h1 d).
Proof. unfold serve. apply foldl_app. Qed.

Lemma serve_cons c history d : serve (c :: history) d = serve history (final (handle c) d).
Proof. reflexivity. Qed.

Lemma serve_distinct history d :
  NoDup (emails d) → NoDup (emails (serve history d)).
Proof.
  revert d. induction history as [|c history IH]; intros d Hd; [done|].
  rewrite serve_cons. apply IH. by apply handle_keeps_emails_distinct.
Qed.

Lemma serve_extends history d :
  ∃ extra, usuario (serve history d) = usuario d ++ extra.
Proof.
  revert d. induction history as [|c history IH]; intros d.
  - exists []. by rewrite app_nil_r.
  - rewrite serve_cons.
    destruct (IH (final (handle c) d)) as [extra ->].
    destruct (handle_extends c d) as [extra' ->].
    exists (extra' ++ extra). by rewrite app_assoc.
Qed.

(** What a request does to the tasks: nothing, one insertion under the
    next id, an update in place that keeps the ids, or a deletion. *)
Lemma handle_tasks c d :
  let d' := final (handle c) d in
  (tasks d' = tasks d ∧ tasks_auto d' = tasks_auto d)
  ∨ (∃ t, Task.id t = tasks_auto d ∧ tasks d' = tasks d ++ [t]
          ∧ tasks_auto d' = tasks_auto d + 1)
  ∨ (∃ id f, (∀ t, Task.id (f t) = Task.id t)
             ∧ tasks d' = update_where_id id f (tasks d)
             ∧ tasks_auto d' = tasks_auto d)
  ∨ (∃ id, tasks d' = filter (λ t, Task.id t ≠ id) (tasks d)
           ∧ tasks_auto d' = tasks_auto d).
Proof.
  destruct c as [salt req|clock req|id req|id req|uid tid req|uid tid req
                 |req|req|id req|id req|clock req];
    cbv zeta; unfold final; cbn [handle].
  - left. destruct (cadastro_cases salt req d)
      as [[_ H]|(nome & email & s & _ & _ & _ & _ & _ & _ & _ & _ & _ & H)];
      unfold final in H; by rewrite H.
  - left. rewrite login_run. cbv zeta. by repeat case_match.
  - left. unfold get_usuario_tasks. run_pool. by case_if.
  - unfold post_usuario_task. case_if; [by left|].
    right; left. eexists. split; [|split]. 2: reflexivity. all: reflexivity.
  - rewrite put_usuario_task_run. case_if; [by left|]. case_if; [by left|].
    right; right; left. eexists _, _. split; [|split]. 2: reflexivity. all: done.
  - rewrite delete_usuario_task_run. case_if; [by left|].
    right; right; right. by eexists.
  - rewrite post_tasks_run. case_if; [by left|].
    right; left. eexists. split; [|split]. 2: reflexivity. all: reflexivity.
  - by left.
  - unfold delete_task. run_pool. right; right; right. exists id. by case_if.
  - destruct (body req !! "concluded") as [v|] eqn:Hv.
    + rewrite (patch_task_given _ _ _ v Hv). right; right; left.
      exists id, (set_concluded v). by repeat split.
    + rewrite patch_task_absent by done. by left.
  - left. by destruct (get_tasks_week_run clock req d) as [->|(startDate & _ & _ & ->)].
Qed.

Lemma update_where_id_ids id f (l : list Task.t) :
  (∀ t, Task.id (f t) = Task.id t) →
  Task.id <$> update_where_id id f l = Task.id <$> l.
Proof.
  intros Hf. unfold update_where_id. rewrite <- list_fmap_compose.
  apply list_fmap_ext. intros i t _. cbn. by destruct (decide _).
Qed.

Lemma handle_keeps_task_ids_fresh c d :
  task_ids_fresh d → task_ids_fresh (final (handle c) d).
Proof.
  intros [Hnd Hlt]. unfold task_ids_fresh.
  destruct (handle_tasks c d)
    as [[-> ->]|[(t & Hid & -> & ->)|[(id & f & Hf & -> & ->)|(id & -> & ->)]]].
  - done.
  - split.
    + rewrite fmap_app. apply NoDup_app. split; [done|]. split; [|apply NoDup_singleton].
      intros i Hi Hin. apply list_elem_of_singleton in Hin. subst i.
      apply list_elem_of_fmap in Hi as (t' & Heq & Ht'). specialize (Hlt t' Ht'). cbn in Heq. lia.
    + intros t' Ht'. apply elem_of_app in Ht' as [Ht'|Ht'].
      * specialize (Hlt t' Ht'). lia.
      * apply list_elem_of_singleton in Ht'. subst t'. lia.
  - split.
    + by rewrite update_where_id_ids.
    + intros t' Ht'. unfold update_where_id in Ht'.
      apply list_elem_of_fmap in Ht' as (t & -> & Ht). specialize (Hlt t Ht).
      destruct (decide _); [rewrite Hf|]; done.
  - split.
    + apply NoDup_fmap_2_strong; [|by apply NoDup_filter, (NoDup_fmap_1 Task.id)].
      intros x y Hx Hy Heq.
      apply list_elem_of_filter in Hx as [_ Hx]. apply list_elem_of_filter in Hy as [_ Hy].
      apply list_elem_of_lookup in Hx as [i Hi]. apply list_elem_of_lookup in Hy as [j Hj].
      assert (i = j) as ->.
      { apply (NoDup_lookup _ _ _ (Task.id x) Hnd); rewrite list_lookup_fmap.
        - by rewrite Hi.
        - by rewrite Hj, Heq. }
      congruence.
    + intros t' Ht'. apply list_elem_of_filter in Ht' as [_ Ht']. by apply Hlt.
Qed.

Lemma serve_keeps_task_ids_fresh history d :
  task_ids_fresh d → task_ids_fresh (serve history d).
Proof.
  revert d. induction history as [|c history IH]; intros d Hd; [done|].
  rewrite serve_cons. apply IH. by apply handle_keeps_task_ids_fresh.
Qed.

(** A user whose registration was accepted is the one row under that
    e-mail ever after, with the digest of that password. *)
Lemma registered_row history email s :
  registered history email s →
  ∃ id nome salt,
    filter (λ u, Usuario.email u = email) (usuario (serve history empty_db))
    = [Usuario.mk id nome email (JStr (bcrypt_hash s salt))]
    ∧ truthy email = true ∧ truthy (JStr s) = true.
Proof.
  intros (before & salt & req & after & -> & Hemail & Hsenha & Hok).
  pose proof (serve_distinct (before ++ PostCadastro salt req :: after) empty_db
                (NoDup_nil_2 : NoDup (emails empty_db))) as Hnd.
  rewrite serve_app, serve_cons in Hnd |- *. cbn [handle] in Hnd |- *.
  destruct (cadastro_cases salt req (serve before empty_db))
    as [[Hno _]|(nome & email' & s' & _ & _ & Hemail' & Hemail_t & Hsenha' & Hs_t
                 & _ & _ & _ & Hfinal)]; [done|].
  rewrite Hemail in Hemail'. rewrite Hsenha in Hsenha'.
  injection Hemail' as <-. injection Hsenha' as <-.
  rewrite Hfinal in Hnd |- *.
  set (d1 := serve before empty_db) in *.
  set (u := Usuario.mk (usuario_auto d1) nome email (JStr (bcrypt_hash s salt))) in *.
  destruct (serve_extends after (insert_usuario d1 u)) as [extra Hextra].
  unfold emails in Hnd. rewrite Hextra in Hnd |- *. cbn [usuario insert_usuario] in Hnd |- *.
  rewrite <- app_assoc in Hnd |- *. cbn [app] in Hnd |- *.
  exists (usuario_auto d1), nome, salt. split; [|done].
  apply (filter_distinct_key Usuario.email (usuario d1) extra u Hnd).
Qed.

(** ** The owner-scoped update and delete *)

Lemma guard_denies usuarioId taskId d :
  no_such_task taskId d ∨ owned_by_another taskId usuarioId d →
  filter (owned_by taskId usuarioId) (tasks d) = [].
Proof.
  intros Hd. apply filter_absent. intros t Ht [Hid Hown].
  destruct Hd as [Hno|[_ Hother]].
  - by apply (Hno t).
  - by apply (Hother t).
Qed.

Lemma update_fields_given_check req :
  update_fields_given req ↔
  falsy (body req !! "text") || falsy (body req !! "date")
  || falsy (body req !! "priority") || falsy (body req !! "folder")
  || bool_decide (body req !! "concluded" = None) = false.
Proof.
  unfold update_fields_given.
  rewrite !orb_false_iff, bool_decide_eq_false. tauto.
Qed.

(** C1: whatever the owner id and the task id, when the task does not
    exist, and as well when it exists under another owner (or none), the
    guard's SELECT finds no row; DELETE then answers 404 and leaves the
    store as it was, and so does PUT on every body that carries the
    fields (a body that misses one is turned down with 400 before the
    guard is asked, the store untouched too).  The caller cannot tell the
    two cases apart: on any two stores that deny, the answers are equal. *)
Theorem ownership_guard_denies (usuarioId taskId : Z) (req : request) (d : db) :
  no_such_task taskId d ∨ owned_by_another taskId usuarioId d →
  rows (answer (pool_query (SelectTaskOwned taskId usuarioId)) d) = []
  ∧ delete_usuario_task usuarioId taskId req d
    = (not_found_for_owner, d, [Queried (SelectTaskOwned taskId usuarioId)])
  ∧ final (put_usuario_task usuarioId taskId req) d = d
  ∧ (update_fields_given req →
     put_usuario_task usuarioId taskId req d
     = (not_found_for_owner, d, [Queried (SelectTaskOwned taskId usuarioId)]))
  ∧ (¬ update_fields_given req →
     put_usuario_task usuarioId taskId req d
     = ({| status := 400; sent := Message "Todos os campos são obrigatórios." |}, d, []))
  ∧ (∀ d', no_such_task taskId d' ∨ owned_by_another taskId usuarioId d' →
     answer (delete_usuario_task usuarioId taskId req) d'
     = answer (delete_usuario_task usuarioId taskId req) d
     ∧ answer (put_usuario_task usuarioId taskId req) d'
       = answer (put_usuario_task usuarioId taskId req) d).
Proof.
  intros Hdenied. pose proof (guard_denies _ _ _ Hdenied) as Hnone.
  split; [exact Hnone|]. split.
  { rewrite delete_usuario_task_run, Hnone. done. }
  unfold final, answer. rewrite put_usuario_task_run, Hnone.
  split; [|split; [|split]].
  - by destruct (_ || _).
  - intros Hgiven. apply update_fields_given_check in Hgiven. by rewrite Hgiven.
  - intros Hmissing. rewrite update_fields_given_check in Hmissing.
    apply not_false_is_true in Hmissing. by rewrite Hmissing.
  - intros d' Hdenied'. pose proof (guard_denies _ _ _ Hdenied') as Hnone'.
    rewrite !delete_usuario_task_run, put_usuario_task_run, Hnone, Hnone'.
    split; [done|]. by destruct (_ || _).
Qed.

(** Task 6 does not exist and task 5 belongs to user 7: user 7 deleting
    task 6 and user 8 updating task 5 get the same 404. *)
Lemma ownership_guard_denies_witness :
  (no_such_task 6 sample_db ∨ owned_by_another 6 7 sample_db)
  ∧ (no_such_task 5 sample_db ∨ owned_by_another 5 8 sample_db)
  ∧ delete_usuario_task 7 6 (json_request ∅) sample_db
    = (not_found_for_owner, sample_db, [Queried (SelectTaskOwned 6 7)])
  ∧ put_usuario_task 8 5 sample_update sample_db
    = (not_found_for_owner, sample_db, [Queried (SelectTaskOwned 5 8)]).
Proof.
  assert (H1 : no_such_task 6 sample_db ∨ owned_by_another 6 7 sample_db).
  { left. intros t Ht. apply list_elem_of_singleton in Ht. by subst t. }
  assert (H2 : no_such_task 5 sample_db ∨ owned_by_another 5 8 sample_db).
  { right. split.
    - exists sample_task. split; [apply list_elem_of_singleton|]; done.
    - intros t Ht _. apply list_elem_of_singleton in Ht. by subst t. }
  split; [exact H1|]. split; [exact H2|]. split.
  - apply (ownership_guard_denies 7 6 (json_request ∅) sample_db H1).
  - apply (ownership_guard_denies 8 5 sample_update sample_db H2).
    apply update_fields_given_check. reflexivity.
Defined.

(** C2, as stated, fails: an update and a delete that carry no header at
    all, hence no token, send their statements to the pool with no token
    check before them, answer 200 and change the store. *)
Lemma mutation_without_token_counterexample :
  headers sample_update = ∅
  ∧ trace (put_usuario_task 7 5 sample_update) sample_db
    = [Queried (SelectTaskOwned 5 7);
       Queried (UpdateTask (JStr "ler") (JStr "2024-01-08") (JStr "baixa") (JStr "casa")
                  (JBool true) 5)]
  ∧ ¬ verified_before_pool (trace (put_usuario_task 7 5 sample_update) sample_db)
  ∧ status (answer (put_usuario_task 7 5 sample_update) sample_db) = 200
  ∧ tasks (final (put_usuario_task 7 5 sample_update) sample_db)
    = [Task.mk 5 (JStr "ler") (JStr "2024-01-08") (JStr "baixa") (JStr "casa")
         (JBool true) (Some 7)]
  ∧ headers (json_request ∅) = ∅
  ∧ trace (delete_usuario_task 7 5 (json_request ∅)) sample_db
    = [Queried (SelectTaskOwned 5 7); Queried (DeleteTask 5)]
  ∧ ¬ verified_before_pool (trace (delete_usuario_task 7 5 (json_request ∅)) sample_db)
  ∧ status (answer (delete_usuario_task 7 5 (json_request ∅)) sample_db) = 200
  ∧ tasks (final (delete_usuario_task 7 5 (json_request ∅)) sample_db) = [].
Proof.
  assert (Hno : ∀ st tr, ¬ verified_before_pool (Queried st :: tr)).
  { intros st tr Hv. destruct (Hv 0%nat st eq_refl) as (j & Hj & _). lia. }
  repeat split; try reflexivity; apply Hno.
Qed.

(** C2, amended: the owner-scoped update and delete decode and verify no
    token: their run is the same under any headers and holds no token
    check.  What they do keep is the order of guard and mutation: the
    ownership SELECT is the first statement sent, and the UPDATE or DELETE
    follows it only when that SELECT found a row. *)
Theorem guard_precedes_mutation (usuarioId taskId : Z) (req : request) (d : db) :
  let guard := Queried (SelectTaskOwned taskId usuarioId) in
  let put := put_usuario_task usuarioId taskId in
  let del := delete_usuario_task usuarioId taskId in
  (∀ h, put (with_headers h req) d = put req d)
  ∧ (∀ h, del (with_headers h req) d = del req d)
  ∧ (∀ ok, (TokenVerified ok ∉ trace (put req) d) ∧ (TokenVerified ok ∉ trace (del req) d))
  ∧ (trace (put req) d = []
     ∨ trace (put req) d = [guard]
     ∨ (filter (owned_by taskId usuarioId) (tasks d) ≠ []
        ∧ ∃ text date priority folder concluded,
            trace (put req) d
            = [guard; Queried (UpdateTask text date priority folder concluded taskId)]))
  ∧ (trace (del req) d = [guard]
     ∨ (filter (owned_by taskId usuarioId) (tasks d) ≠ []
        ∧ trace (del req) d = [guard; Queried (DeleteTask taskId)])).
Proof.
  intros guard put del. subst guard put del. unfold trace.
  split; [done|]. split; [done|].
  rewrite put_usuario_task_run, delete_usuario_task_run.
  destruct (filter (owned_by taskId usuarioId) (tasks d)) as [|t l] eqn:Hguard; cbn.
  - split; [|split].
    + intros ok. split.
      * destruct (_ || _); cbn; [apply not_elem_of_nil|].
        intros Hin. apply list_elem_of_singleton in Hin. discriminate.
      * intros Hin. apply list_elem_of_singleton in Hin. discriminate.
    + destruct (_ || _); cbn; [by left|by right; left].
    + by left.
  - split; [|split].
    + intros ok. split.
      * destruct (_ || _); cbn; [apply not_elem_of_nil|].
        intros Hin. apply elem_of_cons in Hin as [Hin|Hin]; [discriminate|].
        apply list_elem_of_singleton in Hin. discriminate.
      * intros Hin. apply elem_of_cons in Hin as [Hin|Hin]; [discriminate|].
        apply list_elem_of_singleton in Hin. discriminate.
    + destruct (_ || _); cbn; [by left|]. right; right. split; [done|]. eauto 10.
    + right. by split.
Qed.

(** ** Session tokens *)

(** C3: a token signed for any claims with a one-hour life verifies at
    once, and at any moment before its expiry, to the claims it was signed
    for.  A token whose signature is not the digest of its signed part, or
    whose expiry has passed, verifies to [Invalid], the one result for
    both: so does an issued token once its signature is replaced or its
    hour is over. *)
Theorem issued_token_verifies
    (mac : string → Jwt.body → string) (c : Jwt.claims) (secret : string) (now : Z) :
  let token := Jwt.sign mac c secret 3600 now in
  Jwt.verify mac token secret now = Jwt.Valid c
  ∧ (∀ later, now ≤ later < now + 3600 → Jwt.verify mac token secret later = Jwt.Valid c)
  ∧ (∀ tok later,
       Jwt.signature tok ≠ mac secret (Jwt.signed tok) ∨ Jwt.exp (Jwt.signed tok) < later →
       Jwt.verify mac tok secret later = Jwt.Invalid)
  ∧ (∀ sig later,
       sig ≠ Jwt.signature token →
       Jwt.verify mac (Jwt.mktoken (Jwt.signed token) sig) secret later = Jwt.Invalid)
  ∧ (∀ later, now + 3600 < later → Jwt.verify mac token secret later = Jwt.Invalid).
Proof.
  intros token.
  assert (Hvalid : ∀ later, later < now + 3600 →
                     Jwt.verify mac token secret later = Jwt.Valid c).
  { intros later Hlater. unfold Jwt.verify, token, Jwt.sign. cbn.
    rewrite String.eqb_refl. cbn.
    destruct (Z.leb_spec (now + 3600) later); [lia|done]. }
  assert (Hinvalid : ∀ tok later,
            Jwt.signature tok ≠ mac secret (Jwt.signed tok) ∨ Jwt.exp (Jwt.signed tok) < later →
            Jwt.verify mac tok secret later = Jwt.Invalid).
  { intros tok later Hbad. unfold Jwt.verify.
    destruct (String.eqb_spec (Jwt.signature tok) (mac secret (Jwt.signed tok))) as [Heq|Hne];
      cbn; [|done].
    destruct Hbad as [Hsig|Hexp]; [done|].
    destruct (Z.leb_spec (Jwt.exp (Jwt.signed tok)) later); [done|lia]. }
  split; [apply Hvalid; lia|]. split; [intros later H; apply Hvalid; lia|].
  split; [exact Hinvalid|]. split.
  - intros sig later Hsig. apply Hinvalid. left. exact Hsig.
  - intros later Hlater. apply Hinvalid. right. unfold token, Jwt.sign. cbn. lia.
Qed.

(** ** PATCH /tasks/:id *)

(** C4, as stated: a body [{"completed": true}] has no [concluded] member,
    so the handler answers 400 where the claim expects 404; and a body
    without [completed] that carries [concluded] is accepted and updates
    the task. *)
Lemma patch_completed_counterexample :
  body completed_true !! "completed" = Some (JBool true)
  ∧ tasks empty_db = []
  ∧ answer (patch_task 5 completed_true) empty_db
    = {| status := 400; sent := Error "Campo concluded é obrigatório para atualização." |}
  ∧ status (answer (patch_task 5 completed_true) empty_db) ≠ 404
  ∧ body concluded_true !! "completed" = None
  ∧ status (answer (patch_task 5 concluded_true) sample_db) = 200
  ∧ final (patch_task 5 concluded_true) sample_db ≠ sample_db.
Proof.
  repeat split; try reflexivity.
  - vm_compute. discriminate.
  - vm_compute. discriminate.
Qed.

(** C4, amended: PATCH /tasks/:id with a body lacking the [concluded]
    member answers 400, sends no statement and leaves the store as it
    was; with a body that has [concluded] (such as [{"concluded": true}])
    and an id that no task has, it answers 404 and the store is as it
    was. *)
Theorem patch_task_requires_concluded (id : Z) (req : request) (d : db) :
  (body req !! "concluded" = None →
     answer (patch_task id req) d
     = {| status := 400; sent := Error "Campo concluded é obrigatório para atualização." |}
     ∧ final (patch_task id req) d = d
     ∧ trace (patch_task id req) d = [])
  ∧ (∀ v, body req !! "concluded" = Some v → no_such_task id d →
     answer (patch_task id req) d
     = {| status := 404; sent := Error "Tarefa não encontrada." |}
     ∧ final (patch_task id req) d = d).
Proof.
  split.
  - intros H. unfold answer, final, trace. by rewrite patch_task_absent.
  - intros v Hv Hid. unfold answer, final. rewrite (patch_task_given _ _ _ v Hv). cbn.
    split.
    + by rewrite (proj2 (matched_zero id (tasks d)) Hid).
    + rewrite update_where_id_absent by exact Hid. apply with_tasks_same.
Qed.

(** An empty body against the sample store, and a flag for a task that is
    not there. *)
Lemma patch_task_requires_concluded_witness :
  answer (patch_task 5 (json_request ∅)) sample_db
  = {| status := 400; sent := Error "Campo concluded é obrigatório para atualização." |}
  ∧ status (answer (patch_task 6 concluded_true) sample_db) = 404.
Proof.
  destruct (patch_task_requires_concluded 5 (json_request ∅) sample_db) as [H _].
  destruct (patch_task_requires_concluded 6 concluded_true sample_db) as [_ H'].
  split.
  - apply H. reflexivity.
  - destruct (H' (JBool true)) as [-> _]; [reflexivity| |reflexivity].
    intros t Ht. apply list_elem_of_singleton in Ht. by subst t.
Defined.

(** C10: a PATCH /tasks/:id that answers 200 found a task with that id
    and changes nothing but the completion flag of the tasks with that id:
    their text, date, priority, folder and owner reference stay, every
    other task is the same row at the same place, and the users are
    untouched. *)
Theorem patch_task_frame (id : Z) (req : request) (d : db) :
  status (answer (patch_task id req) d) = 200 →
  ∃ v, body req !! "concluded" = Some v
    ∧ (∃ t, t ∈ tasks d ∧ Task.id t = id)
    ∧ usuario (final (patch_task id req) d) = usuario d
    ∧ length (tasks (final (patch_task id req) d)) = length (tasks d)
    ∧ ∀ (i : nat) (t : Task.t), tasks d !! i = Some t →
        ∃ t', tasks (final (patch_task id req) d) !! i = Some t'
          ∧ Task.id t' = Task.id t
          ∧ Task.text t' = Task.text t
          ∧ Task.date t' = Task.date t
          ∧ Task.priority t' = Task.priority t
          ∧ Task.folder t' = Task.folder t
          ∧ Task.usuario_id t' = Task.usuario_id t
          ∧ (Task.id t = id → Task.concluded t' = v)
          ∧ (Task.id t ≠ id → t' = t).
Proof.
  unfold answer, final. intros Hok.
  destruct (body req !! "concluded") as [v|] eqn:Hv.
  2:{ rewrite patch_task_absent in Hok by done. discriminate. }
  exists v. rewrite (patch_task_given _ _ _ v Hv) in Hok |- *. cbn in Hok |- *.
  split; [done|]. split.
  { unfold matched in Hok.
    destruct (filter (λ t, Task.id t = id) (tasks d)) as [|t l] eqn:Hfound;
      [discriminate|].
    exists t. apply and_comm, (list_elem_of_filter (λ t, Task.id t = id)).
    rewrite Hfound. left. }
  split; [done|]. split.
  { unfold update_where_id. apply length_fmap. }
  intros i t Hi. rewrite update_where_id_lookup, Hi. cbn.
  destruct (decide (Task.id t = id)) as [Heq|Hne].
  - exists (set_concluded v t). by repeat split.
  - exists t. by repeat split.
Qed.

(** The sample task is marked as done and nothing else moves. *)
Lemma patch_task_frame_witness :
  status (answer (patch_task 5 concluded_true) sample_db) = 200
  ∧ ∃ v, body concluded_true !! "concluded" = Some v
      ∧ usuario (final (patch_task 5 concluded_true) sample_db) = usuario sample_db.
Proof.
  split; [reflexivity|].
  destruct (patch_task_frame 5 concluded_true sample_db eq_refl) as (v & Hv & _ & Hu & _).
  exists v. split; [exact Hv|exact Hu].
Defined.

(** ** Creating tasks *)

(** C7: POST /tasks with text, date and priority present and no folder
    answers 201 and inserts one task, with folder "default", the
    completion flag false and no owner; POST /usuario/:id/task with no
    folder answers 400, sends no statement and inserts nothing. *)
Theorem folder_default_only_when_unscoped (id : Z) (req : request) (d : db) :
  body req !! "folder" = None →
  (∀ text date priority,
     body req !! "text" = Some text → truthy text = true →
     body req !! "date" = Some date → truthy date = true →
     body req !! "priority" = Some priority → truthy priority = true →
     let created :=
       Task.mk (tasks_auto d) text date priority (JStr "default") (JBool false) None in
     answer (post_tasks req) d
     = {| status := 201;
          sent := TaskJson (tasks_auto d) text date priority (JStr "default") (JBool false) |}
     ∧ tasks (final (post_tasks req) d) = tasks d ++ [created]
     ∧ usuario (final (post_tasks req) d) = usuario d)
  ∧ post_usuario_task id req d
    = ({| status := 400; sent := Message "Todos os campos são obrigatórios." |}, d, []).
Proof.
  intros Hfolder. split.
  - intros text date priority Ht Htt Hd Hdt Hp Hpt created. subst created.
    unfold answer, final. rewrite post_tasks_run, Ht, Hd, Hp, Hfolder. cbn.
    rewrite Htt, Hdt, Hpt. cbn. done.
  - unfold post_usuario_task. rewrite Hfolder. cbn.
    by rewrite !orb_true_r.
Qed.

(** The same body, without a folder, on both creation routes. *)
Lemma folder_default_only_when_unscoped_witness :
  body sample_create !! "folder" = None
  ∧ tasks (final (post_tasks sample_create) sample_db)
    = [sample_task;
       Task.mk 6 (JStr "ler") (JStr "2024-01-08") (JStr "baixa") (JStr "default")
         (JBool false) None]
  ∧ post_usuario_task 7 sample_create sample_db
    = ({| status := 400; sent := Message "Todos os campos são obrigatórios." |}, sample_db, []).
Proof.
  destruct (folder_default_only_when_unscoped 7 sample_create sample_db eq_refl)
    as [Hpost Hscoped].
  split; [reflexivity|]. split; [|exact Hscoped].
  by apply (Hpost (JStr "ler") (JStr "2024-01-08") (JStr "baixa")).
Defined.

(** ** The week listing *)

(** BETWEEN takes in the rows dated from its first bound to its last, the
    two bounds included, and no other. *)
Lemma between_dated (lo hi : Z) (t : Task.t) (s : string) (day : Z) :
  Task.date t = JStr s → iso_day s = Some day → between lo hi t ↔ lo ≤ day ≤ hi.
Proof.
  intros Hcell Hday. unfold between. rewrite Hcell. cbn [sql_date]. rewrite Hday. split.
  - by intros (day' & [= <-] & Hrange).
  - intros Hrange. by exists day.
Qed.

(** C8: the range that GET /tasks/week asks the engine for when [start]
    is a date YYYY-MM-DD, which [new Date] reads as the midnight that
    opens that day in UTC.  The first day of the range is that date.  The
    last is the UTC day of the instant six days later on the local
    calendar: start plus six days, moved by the change of the zone's
    offset between the two local times.  The tasks listed are those dated
    from the first day to the last, both included.  While the offset
    stays as it is, or goes back by less than a day, the end is start plus
    six.  When the offset has gone forward in between, the end is start
    plus five, and a task dated start plus six is not listed: there the
    handler does not list the week it is documented to list.  The range
    SELECT itself, for any two bounds, answers with the tasks dated from
    the one to the other, both included. *)
Theorem week_range_of_start
    (clock : Z) (req : request) (d : db) (s : string) (start : Z) :
  query req !! "start" = Some s →
  iso_day s = Some start →
  Date_parse s = Some (start * MS_PER_DAY) →
  let before := LocalTZA (start * MS_PER_DAY) true in
  let after := LocalTZA (start * MS_PER_DAY + before + 6 * MS_PER_DAY) false in
  let end_ := start + 6 + (before - after) / MS_PER_DAY in
  let listed := filter (between start end_) (tasks d) in
  get_tasks_week clock req d
  = ({| status := 200; sent := Rows listed |}, d, [Queried (SelectTasksBetween start end_)])
  ∧ (∀ t s' day, t ∈ tasks d → Task.date t = JStr s' → iso_day s' = Some day →
       (t ∈ listed ↔ start ≤ day ≤ end_))
  ∧ (after ≤ before < after + MS_PER_DAY → end_ = start + 6)
  ∧ (before < after ≤ before + MS_PER_DAY →
     end_ = start + 5
     ∧ ∀ t s', t ∈ tasks d → Task.date t = JStr s' → iso_day s' = Some (start + 6) →
         t ∉ listed)
  ∧ (∀ lo hi t s' day, t ∈ tasks d → Task.date t = JStr s' → iso_day s' = Some day →
       (t ∈ rows (answer (pool_query (SelectTasksBetween lo hi)) d) ↔ lo ≤ day ≤ hi)).
Proof.
  intros Hquery Hday Hparse before after end_ listed.
  assert (Hne : s ≠ "") by (intros ->; discriminate Hday).
  assert (Hbetween : ∀ lo hi t s' day, t ∈ tasks d → Task.date t = JStr s' →
                       iso_day s' = Some day →
                       (t ∈ filter (between lo hi) (tasks d) ↔ lo ≤ day ≤ hi)).
  { intros lo hi t s' day Ht Hcell Hday'.
    rewrite list_elem_of_filter, (between_dated _ _ _ _ _ Hcell Hday').
    split; [by intros [Hrange _]|by intros Hrange]. }
  assert (Hlisted : ∀ t s' day, t ∈ tasks d → Task.date t = JStr s' →
                      iso_day s' = Some day → (t ∈ listed ↔ start ≤ day ≤ end_))
    by (intros t s' day; apply Hbetween).
  assert (Hlo : formatDate (start * MS_PER_DAY) = start).
  { unfold formatDate, Day, MS_PER_DAY. by rewrite Z.div_mul. }
  assert (Hhi : formatDate (setDate_plus (start * MS_PER_DAY) 6) = end_).
  { rewrite setDate_plus_offsets. unfold formatDate, Day, LocalTime.
    fold before. fold after. unfold end_.
    replace (start * MS_PER_DAY + 6 * MS_PER_DAY + (before - after))
      with ((before - after) + (start + 6) * MS_PER_DAY) by lia.
    rewrite Z.div_add by (by unfold MS_PER_DAY). lia. }
  split; [|split; [exact Hlisted|split; [|split; [|exact Hbetween]]]].
  - destruct (get_tasks_week_run clock req d) as [Hrun|(startDate & Hstart & _ & Hrun)].
    + exfalso. revert Hrun. unfold get_tasks_week. rewrite Hquery.
      apply String.eqb_neq in Hne. rewrite Hne. cbn [negb]. rewrite Hparse.
      by cbn [fmap option_fmap option_map].
    + rewrite Hrun. specialize (Hstart s Hquery Hne). rewrite Hparse in Hstart.
      injection Hstart as <-. by rewrite Hlo, Hhi.
  - intros Hback. unfold end_.
    assert (Hzero : (before - after) / MS_PER_DAY = 0)
      by (apply Z.div_small; unfold MS_PER_DAY in *; lia).
    lia.
  - intros Hforward.
    assert (Hminus : (before - after) / MS_PER_DAY = -1).
    { replace (before - after) with ((before - after + MS_PER_DAY) + -1 * MS_PER_DAY) by lia.
      rewrite Z.div_add by (by unfold MS_PER_DAY).
      rewrite Z.div_small by (unfold MS_PER_DAY in *; lia). lia. }
    split; [unfold end_; lia|].
    intros t s' Ht Hcell Hday' Hin.
    apply (Hlisted t s' (start + 6) Ht Hcell Hday') in Hin. unfold end_ in Hin. lia.
Qed.

(** ** The unscoped routes *)

Lemma matched_distinct id (l : list Task.t) :
  NoDup (Task.id <$> l) → (matched id l ≤ 1)%nat.
Proof.
  unfold matched. induction l as [|t l IH]; [cbn; lia|].
  rewrite fmap_cons. intros [Hnotin Hnd]%NoDup_cons.
  destruct (decide (Task.id t = id)) as [Heq|Hne].
  - rewrite filter_cons_True by done.
    rewrite (filter_absent _ l); [cbn; lia|].
    intros t' Ht' Heq'. apply Hnotin. rewrite Heq, <- Heq'. by apply list_elem_of_fmap_2.
  - rewrite filter_cons_False by done. by apply IH.
Qed.

(** X1: DELETE /tasks/:id and PATCH /tasks/:id ask no ownership question:
    whoever owns a task with that id, if anyone, the one statement they
    send is the DELETE or the UPDATE, they answer 200, and the task is
    gone or flagged. *)
Theorem unscoped_routes_skip_the_guard (id : Z) (req : request) (d : db) (t : Task.t) :
  t ∈ tasks d → Task.id t = id →
  status (answer (delete_task id req) d) = 200
  ∧ trace (delete_task id req) d = [Queried (DeleteTask id)]
  ∧ no_such_task id (final (delete_task id req) d)
  ∧ (∀ v, body req !! "concluded" = Some v →
     status (answer (patch_task id req) d) = 200
     ∧ trace (patch_task id req) d = [Queried (UpdateConcluded v id)]
     ∧ set_concluded v t ∈ tasks (final (patch_task id req) d)).
Proof.
  intros Ht Hid.
  assert (Hmatched : (matched id (tasks d) =? 0)%nat = false).
  { apply Nat.eqb_neq. intros Hzero. by apply (proj1 (matched_zero id (tasks d)) Hzero t). }
  split; [|split; [|split]].
  - unfold answer, delete_task. run_pool. by rewrite Hmatched.
  - unfold trace, delete_task. run_pool. by case_if.
  - unfold final, delete_task. run_pool.
    intros t' Ht'. replace (tasks _) with (filter (λ t, Task.id t ≠ id) (tasks d)) in Ht'
      by (by case_if).
    by apply list_elem_of_filter in Ht' as [Hne _].
  - intros v Hv. unfold answer, trace, final. rewrite (patch_task_given _ _ _ v Hv). cbn.
    rewrite Hmatched. split; [done|]. split; [done|].
    unfold update_where_id. apply list_elem_of_fmap. exists t.
    by rewrite decide_True.
Qed.

(** User 7's task, deleted and flagged with no owner in sight. *)
Lemma unscoped_routes_skip_the_guard_witness :
  sample_task ∈ tasks sample_db
  ∧ Task.usuario_id sample_task = Some 7
  ∧ status (answer (delete_task 5 (json_request ∅)) sample_db) = 200
  ∧ status (answer (patch_task 5 concluded_true) sample_db) = 200.
Proof.
  assert (Hin : sample_task ∈ tasks sample_db) by (by apply list_elem_of_singleton).
  destruct (unscoped_routes_skip_the_guard 5 (json_request ∅) sample_db sample_task Hin eq_refl)
    as (Hdel & _).
  destruct (unscoped_routes_skip_the_guard 5 concluded_true sample_db sample_task Hin eq_refl)
    as (_ & _ & _ & Hpatch).
  split; [exact Hin|]. split; [reflexivity|]. split; [exact Hdel|].
  by destruct (Hpatch (JBool true) eq_refl) as [-> _].
Defined.

(** X2: after any sequence of requests served from the empty store, the
    ids of the tasks are pairwise distinct and below the AUTO_INCREMENT
    counter; so the statements keyed on an id (the UPDATE of PATCH and
    PUT, the DELETE) match at most one row. *)
Theorem task_ids_stay_distinct (history : list call) :
  let d := serve history empty_db in
  NoDup (Task.id <$> tasks d)
  ∧ (∀ t, t ∈ tasks d → Task.id t < tasks_auto d)
  ∧ (∀ id, matched id (tasks d) ≤ 1)%nat.
Proof.
  intros d.
  assert (Hfresh : task_ids_fresh d).
  { apply serve_keeps_task_ids_fresh. split; [apply NoDup_nil_2|].
    intros t Ht. by apply not_elem_of_nil in Ht. }
  destruct Hfresh as [Hnd Hlt].
  split; [exact Hnd|]. split; [exact Hlt|].
  intros id. by apply matched_distinct.
Qed.

(** ** Registration and login *)

(** C5: when a registration has been accepted, any further registration
    under the same e-mail answers 400 and inserts nothing (the store is
    exactly as the first one left it); the answer is the duplicate-e-mail
    message whenever the second body passes the field checks that the
    handler runs first.  Hence the e-mails of the stored users are
    pairwise distinct after any sequence of requests, registrations or
    others, served from the empty store. *)
Theorem second_registration_conflicts
    (salt1 salt2 : string) (req1 req2 : request) (d : db)
    (history : list call) :
  (body req1 !! "email" = body req2 !! "email" →
   status (answer (cadastro salt1 req1) d) = 201 →
   let d1 := final (cadastro salt1 req1) d in
   status (answer (cadastro salt2 req2) d1) = 400
   ∧ final (cadastro salt2 req2) d1 = d1
   ∧ (registration_fields_given req2 →
      answer (cadastro salt2 req2) d1
      = {| status := 400; sent := Message "E-mail já cadastrado." |}))
  ∧ NoDup (emails (serve history empty_db)).
Proof.
  split.
  2:{ apply serve_distinct. apply NoDup_nil_2. }
  intros Hsame Hfirst d1. subst d1.
  destruct (cadastro_cases salt1 req1 d)
    as [[Hno _]|(nome & email & s & _ & _ & Hemail & _ & _ & _ & _ & _ & _ & ->)];
    [done|].
  set (u := Usuario.mk (usuario_auto d) nome email (JStr (bcrypt_hash s salt1))).
  assert (Hfound : (0 <? length (filter (λ x, Usuario.email x = val (body req2 !! "email"))
                                   (usuario (insert_usuario d u))))%nat = true).
  { rewrite <- Hsame, Hemail. apply (filter_email_found (usuario d) u). }
  unfold answer, final. rewrite cadastro_run.
  destruct (_ || _) eqn:Hfields.
  { split; [done|]. split; [done|].
    intros Hgiven. apply registration_fields_given_check in Hgiven as [Hgiven _].
    congruence. }
  destruct (strict_ne _ _) eqn:Hconfirm.
  { split; [done|]. split; [done|].
    intros Hgiven. apply registration_fields_given_check in Hgiven as [_ Hgiven].
    congruence. }
  cbn zeta. by rewrite Hfound.
Qed.

Section Hasher.

(** Modelled from the spec: bcryptjs is not part of the source, so what
    [bcrypt.hash] and [bcrypt.compare] return is taken from the contract
    of the hasher (sections 3 and 4.1): a digest verifies against the
    password it was made from, and it is never the raw secret. *)
Hypothesis bcrypt_compare_hash :
  ∀ s salt, bcrypt_compare s (bcrypt_hash s salt) = true.
Hypothesis bcrypt_hash_not_plain :
  ∀ s salt, bcrypt_hash s salt ≠ s.

(** C6: a registration with a non-empty name, an e-mail that no stored
    user has and a non-empty password equal to its confirmation answers
    201 and stores one user whose password cell is the hasher's digest of
    the password: it is not the plaintext, and the plaintext verifies
    against it. *)
Theorem stored_hash_verifies
    (salt : string) (req : request) (d : db) (nome email : jsval) (s : string) :
  body req !! "nome" = Some nome → truthy nome = true →
  body req !! "email" = Some email → truthy email = true →
  (∀ u, u ∈ usuario d → Usuario.email u ≠ email) →
  body req !! "senha" = Some (JStr s) → s ≠ "" →
  body req !! "confirmar_senha" = Some (JStr s) →
  status (answer (cadastro salt req) d) = 201
  ∧ ∃ hash,
      usuario (final (cadastro salt req) d)
      = usuario d ++ [Usuario.mk (usuario_auto d) nome email (JStr hash)]
      ∧ hash = bcrypt_hash s salt
      ∧ hash ≠ s
      ∧ JStr hash ≠ JStr s
      ∧ bcrypt_compare s hash = true.
Proof.
  intros Hnome Hnome_t Hemail Hemail_t Hfresh Hsenha Hs Hconf.
  assert (Hs_t : negb (String.eqb s "") = true).
  { apply negb_true_iff, String.eqb_neq. exact Hs. }
  unfold answer, final. rewrite cadastro_run.
  rewrite Hnome, Hemail, Hsenha, Hconf. cbn -[Nat.ltb].
  rewrite Hnome_t, Hemail_t, Hs_t. cbn -[Nat.ltb].
  unfold strict_ne. rewrite bool_decide_eq_true_2 by done. cbn -[Nat.ltb].
  rewrite (filter_absent (λ u, Usuario.email u = email) (usuario d)).
  2:{ intros u Hu. by apply Hfresh. }
  cbn. split; [done|]. exists (bcrypt_hash s salt).
  split; [done|]. split; [done|]. split; [apply bcrypt_hash_not_plain|]. split.
  - intros [= H]. by apply (bcrypt_hash_not_plain s salt).
  - apply bcrypt_compare_hash.
Qed.

(** C9: a login whose e-mail or password is missing answers 400; one
    whose e-mail no stored user has, and one whose password the hasher
    does not verify against the stored digest of the user found, answer
    401 with no [token] member; and after any sequence of requests, a
    login with the e-mail and password of a registration that was
    accepted answers 200 with a token, signed for that user and expiring
    in one hour. *)
Theorem login_outcomes (clock : Z) (req : request) (d : db) :
  (falsy (body req !! "email") = true ∨ falsy (body req !! "senha") = true →
   login clock req d
   = ({| status := 400; sent := Message "E-mail e senha são obrigatórios." |}, d, []))
  ∧ (falsy (body req !! "email") = false → falsy (body req !! "senha") = false →
     (∀ u, u ∈ usuario d → Usuario.email u ≠ val (body req !! "email")) →
     answer (login clock req) d
     = {| status := 401; sent := Message "E-mail não encontrado." |}
     ∧ token_field (answer (login clock req) d) = None)
  ∧ (∀ u others s hash,
     falsy (body req !! "email") = false →
     body req !! "senha" = Some (JStr s) → s ≠ "" →
     filter (λ x, Usuario.email x = val (body req !! "email")) (usuario d) = u :: others →
     Usuario.senha u = JStr hash →
     bcrypt_compare s hash = false →
     answer (login clock req) d = {| status := 401; sent := Message "Senha incorreta." |}
     ∧ token_field (answer (login clock req) d) = None)
  ∧ (∀ history email s,
     registered history email s →
     body req !! "email" = Some email →
     body req !! "senha" = Some (JStr s) →
     let r := answer (login clock req) (serve history empty_db) in
     status r = 200
     ∧ ∃ token,
         sent r = MessageToken "Login bem-sucedido!" token
         ∧ token_field r = Some token
         ∧ Jwt.email (Jwt.claim (Jwt.signed token)) = email
         ∧ Jwt.exp (Jwt.signed token) = clock / 1000 + 3600).
Proof.
  split; [|split; [|split]].
  - intros Hmissing. rewrite login_run.
    by destruct Hmissing as [-> | ->]; rewrite ?orb_true_r.
  - intros Hemail Hsenha Hunknown. unfold token_field, answer.
    rewrite login_run, Hemail, Hsenha. cbn.
    rewrite (filter_absent _ (usuario d)); [done|].
    intros u Hu. by apply Hunknown.
  - intros u others s hash Hemail Hsenha Hs Hfound Hhash Hwrong.
    unfold token_field, answer.
    rewrite login_run, Hemail, Hsenha. cbn.
    apply String.eqb_neq in Hs. rewrite Hs. cbn.
    by rewrite Hfound, Hhash, Hwrong.
  - intros history email s Hreg Hemail Hsenha r. subst r.
    destruct (registered_row _ _ _ Hreg) as (id & nome & salt & Hrow & Hemail_t & Hs_t).
    unfold token_field, answer.
    rewrite login_run, Hemail, Hsenha, !val_Some. cbn [falsy].
    rewrite Hemail_t, Hs_t. cbn [negb orb].
    cbn zeta. rewrite Hrow. cbn [Usuario.senha].
    rewrite bcrypt_compare_hash. cbn. eauto 10.
Qed.

End Hasher.

(** * Further properties of the handlers *)

(** ** What an admitted update and delete do *)

Lemma guard_admits usuarioId taskId d t :
  t ∈ tasks d → owned_by taskId usuarioId t →
  (length (filter (owned_by taskId usuarioId) (tasks d)) =? 0)%nat = false.
Proof.
  intros Ht Hown. apply Nat.eqb_neq. intros Hzero.
  apply length_zero_iff_nil in Hzero.
  by apply (filter_nil_not_elem_of _ _ t Hzero).
Qed.

Lemma filter_other_ids_absent id (l : list Task.t) :
  (∀ t, t ∈ l → Task.id t ≠ id) → filter (λ t, Task.id t ≠ id) l = l.
Proof.
  induction l as [|t l IH]; intros Hl; [done|].
  rewrite filter_cons_True by (apply Hl; left).
  f_equal. apply IH. intros t' Ht'. apply Hl. by right.
Qed.

(** X3: when the task is the owner's and the body carries the fields, PUT
    answers 200 after the guard's SELECT and one UPDATE; every row with
    that id takes the five fields of the body and keeps its id and its
    owner, every other row stays as it is at its place, and the users are
    untouched. *)
Theorem put_updates_owned_task
    (usuarioId taskId : Z) (req : request) (d : db) (t : Task.t) :
  update_fields_given req → t ∈ tasks d → owned_by taskId usuarioId t →
  let d' := final (put_usuario_task usuarioId taskId req) d in
  answer (put_usuario_task usuarioId taskId req) d
  = {| status := 200; sent := Message "Tarefa atualizada com sucesso!" |}
  ∧ trace (put_usuario_task usuarioId taskId req) d
    = [Queried (SelectTaskOwned taskId usuarioId);
       Queried (UpdateTask (val (body req !! "text")) (val (body req !! "date"))
                  (val (body req !! "priority")) (val (body req !! "folder"))
                  (val (body req !! "concluded")) taskId)]
  ∧ usuario d' = usuario d
  ∧ put_row req t ∈ tasks d'
  ∧ Task.id (put_row req t) = taskId
  ∧ Task.usuario_id (put_row req t) = Some usuarioId
  ∧ ∀ (i : nat) (t0 : Task.t), tasks d !! i = Some t0 →
      tasks d' !! i = Some (if decide (Task.id t0 = taskId) then put_row req t0 else t0).
Proof.
  intros Hgiven Ht Hown d'. subst d'. unfold answer, trace, final.
  apply update_fields_given_check in Hgiven.
  rewrite put_usuario_task_run, Hgiven, (guard_admits _ _ _ _ Ht Hown). cbn.
  destruct Hown as [Hid Howner].
  split; [done|]. split; [done|]. split; [done|]. split; [|split; [|split]].
  - unfold update_where_id. apply list_elem_of_fmap. exists t.
    by rewrite decide_True.
  - exact Hid.
  - exact Howner.
  - intros i t0 Hi. by rewrite update_where_id_lookup, Hi.
Qed.

(** X4: when the task is the owner's, DELETE answers 200 after the guard's
    SELECT and one DELETE; the rows with that id are gone, the other rows
    stay in their order, and the users are untouched.  The task being
    gone, the same request once more answers 404 and changes nothing. *)
Theorem delete_removes_owned_task
    (usuarioId taskId : Z) (req : request) (d : db) (t : Task.t) :
  t ∈ tasks d → owned_by taskId usuarioId t →
  let d' := final (delete_usuario_task usuarioId taskId req) d in
  answer (delete_usuario_task usuarioId taskId req) d
  = {| status := 200; sent := Message "Tarefa deletada com sucesso!" |}
  ∧ trace (delete_usuario_task usuarioId taskId req) d
    = [Queried (SelectTaskOwned taskId usuarioId); Queried (DeleteTask taskId)]
  ∧ usuario d' = usuario d
  ∧ tasks d' = filter (λ t0, Task.id t0 ≠ taskId) (tasks d)
  ∧ no_such_task taskId d'
  ∧ (∀ t0, t0 ∈ tasks d → Task.id t0 ≠ taskId → t0 ∈ tasks d')
  ∧ delete_usuario_task usuarioId taskId req d'
    = (not_found_for_owner, d', [Queried (SelectTaskOwned taskId usuarioId)]).
Proof.
  intros Ht Hown d'.
  assert (Hd' : d' = with_tasks d (filter (λ t0, Task.id t0 ≠ taskId) (tasks d))).
  { subst d'. unfold final.
    by rewrite delete_usuario_task_run, (guard_admits _ _ _ _ Ht Hown). }
  assert (Hgone : no_such_task taskId d').
  { rewrite Hd'. intros t0 Ht0. cbn in Ht0.
    by apply list_elem_of_filter in Ht0 as [Hne _]. }
  unfold answer, trace.
  rewrite (delete_usuario_task_run _ _ _ d), (guard_admits _ _ _ _ Ht Hown). cbn.
  split; [done|]. split; [done|]. split; [by rewrite Hd'|]. split; [by rewrite Hd'|].
  split; [exact Hgone|]. split.
  - intros t0 Ht0 Hne. rewrite Hd'. cbn. by apply list_elem_of_filter.
  - rewrite delete_usuario_task_run, (guard_denies usuarioId taskId d'); [done|by left].
Qed.

(** X13: the last write wins.  Two PATCHes of the same id leave the store
    that the second alone leaves; and so do two PUTs of one owner's task,
    the second being admitted like the first, since an update keeps the
    owner. *)
Theorem last_write_wins
    (usuarioId taskId : Z) (req1 req2 : request) (d : db) :
  (body req1 !! "concluded" ≠ None → body req2 !! "concluded" ≠ None →
   final (patch_task taskId req2) (final (patch_task taskId req1) d)
   = final (patch_task taskId req2) d)
  ∧ (∀ t, update_fields_given req1 → update_fields_given req2 →
       t ∈ tasks d → owned_by taskId usuarioId t →
       let d1 := final (put_usuario_task usuarioId taskId req1) d in
       status (answer (put_usuario_task usuarioId taskId req2) d1) = 200
       ∧ final (put_usuario_task usuarioId taskId req2) d1
         = final (put_usuario_task usuarioId taskId req2) d).
Proof.
  assert (Hcompose : ∀ (f g : Task.t → Task.t) (l : list Task.t),
             (∀ t0, Task.id (f t0) = Task.id t0) → (∀ t0, g (f t0) = g t0) →
             update_where_id taskId g (update_where_id taskId f l)
             = update_where_id taskId g l).
  { intros f g l Hf Hg. unfold update_where_id. rewrite <- list_fmap_compose.
    apply list_fmap_ext. intros i t0 _. cbn.
    destruct (decide (Task.id t0 = taskId)) as [Heq|Hne].
    - by rewrite decide_True, Hg by (by rewrite Hf).
    - by rewrite decide_False. }
  split.
  - intros H1 H2. unfold final.
    destruct (body req1 !! "concluded") as [v1|] eqn:Hv1; [|done].
    destruct (body req2 !! "concluded") as [v2|] eqn:Hv2; [|done].
    rewrite (patch_task_given _ _ d v1 Hv1). cbn.
    rewrite !(patch_task_given _ _ _ v2 Hv2). cbn.
    unfold with_tasks. cbn. f_equal. by apply Hcompose.
  - intros t Hgiven1 Hgiven2 Ht Hown d1.
    assert (Hd1 : d1 = with_tasks d (update_where_id taskId (put_row req1) (tasks d))).
    { subst d1. unfold final. apply update_fields_given_check in Hgiven1.
      by rewrite put_usuario_task_run, Hgiven1, (guard_admits _ _ _ _ Ht Hown). }
    assert (Ht1 : put_row req1 t ∈ tasks d1).
    { rewrite Hd1. cbn. unfold update_where_id. apply list_elem_of_fmap. exists t.
      destruct Hown as [Hid _]. by rewrite decide_True. }
    assert (Hown1 : owned_by taskId usuarioId (put_row req1 t)) by exact Hown.
    unfold answer, final. apply update_fields_given_check in Hgiven2.
    rewrite !put_usuario_task_run, Hgiven2.
    rewrite (guard_admits _ _ _ _ Ht1 Hown1), (guard_admits _ _ _ _ Ht Hown). cbn.
    split; [done|]. rewrite Hd1. unfold with_tasks. cbn. f_equal.
    by apply Hcompose.
Qed.

(** ** Creating and listing a user's tasks *)

Lemma get_usuario_tasks_run id req d :
  get_usuario_tasks id req d
  = (if (length (filter (λ t, Task.usuario_id t = Some id) (tasks d)) =? 0)%nat
     then {| status := 404; sent := Message "Nenhuma tarefa encontrada para este usuário." |}
     else {| status := 200;
             sent := Tasks (filter (λ t, Task.usuario_id t = Some id) (tasks d)) |},
     d, [Queried (SelectTasksByUsuario id)]).
Proof. unfold get_usuario_tasks. run_pool. by case_if. Qed.

Lemma post_usuario_task_run id req d :
  post_usuario_task id req d
  = if falsy (body req !! "text") || falsy (body req !! "date")
       || falsy (body req !! "priority") || falsy (body req !! "folder")
    then ({| status := 400; sent := Message "Todos os campos são obrigatórios." |}, d, [])
    else ({| status := 201;
             sent := MessageTaskId "Tarefa criada com sucesso!" (tasks_auto d) |},
          insert_task d (created_for id req d),
          [Queried (InsertTaskOwned (val (body req !! "text")) (val (body req !! "date"))
                      (val (body req !! "priority")) (val (body req !! "folder"))
                      (JBool false) id)]).
Proof. unfold post_usuario_task. by case_if. Qed.

Lemma create_fields_given_check req :
  create_fields_given req ↔
  falsy (body req !! "text") || falsy (body req !! "date")
  || falsy (body req !! "priority") || falsy (body req !! "folder") = false.
Proof. unfold create_fields_given. rewrite !orb_false_iff. tauto. Qed.

(** X6: GET /usuario/:id/tasks sends one SELECT and never writes.  It
    answers 404 when no task refers to that user, and otherwise 200 with
    exactly the tasks that refer to that user, in the order of the table;
    the users table plays no part in the answer. *)
Theorem get_usuario_tasks_lists_own (id : Z) (req : request) (d : db) :
  final (get_usuario_tasks id req) d = d
  ∧ trace (get_usuario_tasks id req) d = [Queried (SelectTasksByUsuario id)]
  ∧ ((∀ t, t ∈ tasks d → Task.usuario_id t ≠ Some id) →
     answer (get_usuario_tasks id req) d
     = {| status := 404; sent := Message "Nenhuma tarefa encontrada para este usuário." |})
  ∧ (∀ t, t ∈ tasks d → Task.usuario_id t = Some id →
     ∃ l, answer (get_usuario_tasks id req) d = {| status := 200; sent := Tasks l |}
       ∧ l = filter (λ t', Task.usuario_id t' = Some id) (tasks d)
       ∧ ∀ t', t' ∈ l ↔ Task.usuario_id t' = Some id ∧ t' ∈ tasks d)
  ∧ (∀ d2, tasks d2 = tasks d →
     answer (get_usuario_tasks id req) d2 = answer (get_usuario_tasks id req) d).
Proof.
  unfold final, trace, answer. rewrite get_usuario_tasks_run. cbn -[Nat.eqb].
  split; [done|]. split; [done|]. split; [|split].
  - intros Hnone. by rewrite (filter_absent _ (tasks d)).
  - intros t Ht Hown. eexists. split; [|split; [reflexivity|]].
    + destruct (filter _ (tasks d)) as [|t0 l] eqn:Hfound; [|done].
      by apply (filter_nil_not_elem_of _ _ t Hfound) in Hown.
    + intros t'. apply (list_elem_of_filter (λ t0, Task.usuario_id t0 = Some id)).
  - intros d2 Hsame. by rewrite get_usuario_tasks_run, Hsame.
Qed.

(** X5: POST /usuario/:id/task with its four fields answers 201 with the
    id the engine gave, and appends one task under that id, owned by the
    user of the route and not concluded.  From then on the user's listing
    ends with that task, and the user's DELETE and PUT of that id are
    admitted; when the ids of the store were distinct, every other user's
    are answered 404. *)
Theorem created_task_is_owned (id : Z) (req : request) (d : db) :
  create_fields_given req →
  let d' := final (post_usuario_task id req) d in
  let t := created_for id req d in
  answer (post_usuario_task id req) d
  = {| status := 201; sent := MessageTaskId "Tarefa criada com sucesso!" (tasks_auto d) |}
  ∧ tasks d' = tasks d ++ [t]
  ∧ tasks_auto d' = tasks_auto d + 1
  ∧ usuario d' = usuario d
  ∧ (∀ req',
       answer (get_usuario_tasks id req') d'
       = {| status := 200;
            sent := Tasks (filter (λ t', Task.usuario_id t' = Some id) (tasks d) ++ [t]) |})
  ∧ (∀ req', status (answer (delete_usuario_task id (tasks_auto d) req') d') = 200)
  ∧ (∀ req', update_fields_given req' →
       status (answer (put_usuario_task id (tasks_auto d) req') d') = 200)
  ∧ (task_ids_fresh d → ∀ other req', other ≠ id →
       answer (delete_usuario_task other (tasks_auto d) req') d' = not_found_for_owner
       ∧ final (put_usuario_task other (tasks_auto d) req') d' = d'
       ∧ status (answer (put_usuario_task other (tasks_auto d) req') d') ≠ 200).
Proof.
  intros Hgiven d' t. apply create_fields_given_check in Hgiven.
  assert (Hd' : d' = insert_task d t).
  { subst d'. unfold final. by rewrite post_usuario_task_run, Hgiven. }
  assert (Ht : t ∈ tasks d') by (rewrite Hd'; cbn; apply elem_of_app; right; left).
  assert (Hown : owned_by (tasks_auto d) id t) by done.
  unfold answer. rewrite post_usuario_task_run, Hgiven. cbn -[Nat.eqb].
  split; [done|]. split; [by rewrite Hd'|]. split; [by rewrite Hd'|].
  split; [by rewrite Hd'|]. split; [|split; [|split]].
  - intros req'. rewrite get_usuario_tasks_run. cbn -[Nat.eqb].
    rewrite Hd'. cbn -[Nat.eqb]. rewrite filter_app, filter_cons_True by done.
    rewrite filter_nil, length_app. cbn -[Nat.eqb].
    by rewrite (proj2 (Nat.eqb_neq _ 0)) by lia.
  - intros req'. by rewrite delete_usuario_task_run, (guard_admits _ _ _ _ Ht Hown).
  - intros req' Hgiven'. apply update_fields_given_check in Hgiven'.
    by rewrite put_usuario_task_run, Hgiven', (guard_admits _ _ _ _ Ht Hown).
  - intros [_ Hbelow] other req' Hother.
    assert (Hdenied : filter (owned_by (tasks_auto d) other) (tasks d') = []).
    { apply filter_absent. intros t0 Ht0 [Hid Howner]. rewrite Hd' in Ht0. cbn in Ht0.
      apply elem_of_app in Ht0 as [Ht0|Ht0].
      - specialize (Hbelow t0 Ht0). lia.
      - apply list_elem_of_singleton in Ht0. subst t0. cbn in Howner. congruence. }
    unfold final. rewrite delete_usuario_task_run, put_usuario_task_run, Hdenied. cbn.
    split; [done|]. case_if; cbn; (split; [done|intros [=]]).
Qed.

(** X7: a task created by POST /tasks has no owner.  It is in the listing
    of GET /tasks and DELETE /tasks/:id removes it; but when the ids of
    the store were distinct, no user's listing holds it, and every
    owner-scoped DELETE or PUT of its id, whoever the user, is turned down
    with the store as it was. *)
Theorem unowned_task_is_out_of_scope (req : request) (d : db) :
  task_ids_fresh d →
  falsy (body req !! "text") || falsy (body req !! "date")
  || falsy (body req !! "priority") = false →
  let d' := final (post_tasks req) d in
  let t := created_unowned req d in
  tasks d' = tasks d ++ [t]
  ∧ (∀ req', answer (get_tasks req') d' = {| status := 200; sent := Rows (tasks d ++ [t]) |})
  ∧ (∀ req', status (answer (delete_task (tasks_auto d) req') d') = 200
             ∧ tasks (final (delete_task (tasks_auto d) req') d') = tasks d)
  ∧ (∀ usuarioId req',
       (t ∉ filter (λ t', Task.usuario_id t' = Some usuarioId) (tasks d'))
       ∧ delete_usuario_task usuarioId (tasks_auto d) req' d'
         = (not_found_for_owner, d', [Queried (SelectTaskOwned (tasks_auto d) usuarioId)])
       ∧ final (put_usuario_task usuarioId (tasks_auto d) req') d' = d'
       ∧ status (answer (put_usuario_task usuarioId (tasks_auto d) req') d') ≠ 200).
Proof.
  intros [_ Hbelow] Hgiven d' t.
  assert (Hd' : d' = insert_task d t).
  { subst d'. unfold final. by rewrite post_tasks_run, Hgiven. }
  assert (Hother : ∀ t0, t0 ∈ tasks d → Task.id t0 ≠ tasks_auto d).
  { intros t0 Ht0. specialize (Hbelow t0 Ht0). lia. }
  split; [by rewrite Hd'|]. split; [|split].
  - intros req'. unfold answer, get_tasks. run_pool. by rewrite Hd'.
  - intros req'. unfold answer, final, delete_task. run_pool. rewrite Hd'. cbn -[Nat.eqb].
    unfold matched. rewrite !filter_app, !filter_cons_True, !filter_nil by done.
    rewrite filter_cons_False, filter_nil by (by intros H; apply H).
    rewrite length_app, filter_other_ids_absent, app_nil_r by done. cbn -[Nat.eqb].
    by rewrite (proj2 (Nat.eqb_neq _ 0)) by lia.
  - intros usuarioId req'.
    assert (Hdenied : filter (owned_by (tasks_auto d) usuarioId) (tasks d') = []).
    { apply filter_absent. intros t0 Ht0 [Hid Howner]. rewrite Hd' in Ht0. cbn in Ht0.
      apply elem_of_app in Ht0 as [Ht0|Ht0].
      - by apply (Hother t0).
      - apply list_elem_of_singleton in Ht0. by subst t0. }
    split; [|split; [|split]].
    + intros Hin. by apply list_elem_of_filter in Hin as [Hin _].
    + by rewrite delete_usuario_task_run, Hdenied.
    + unfold final. rewrite put_usuario_task_run, Hdenied. by case_if.
    + unfold answer. rewrite put_usuario_task_run, Hdenied. case_if; cbn; intros [=].
Qed.

(** ** Failures and reads *)

Lemma delete_task_run id req d :
  delete_task id req d
  = (if (matched id (tasks d) =? 0)%nat
     then {| status := 404; sent := Error "Tarefa não encontrada." |}
     else {| status := 200; sent := Message "Tarefa deletada com sucesso." |},
     with_tasks d (filter (λ t, Task.id t ≠ id) (tasks d)),
     [Queried (DeleteTask id)]).
Proof. unfold delete_task. run_pool. by case_if. Qed.

(** X8: a request that is answered with an error status leaves the store
    exactly as it was, on every route; the login and the three listings
    never write, whatever they answer; and every answer without an error
    is a 200 or a 201. *)
Theorem failures_change_nothing (c : call) (d : db) :
  (400 ≤ status (answer (handle c) d) → final (handle c) d = d)
  ∧ (reads_only c → final (handle c) d = d)
  ∧ (status (answer (handle c) d) < 400 →
     status (answer (handle c) d) = 200 ∨ status (answer (handle c) d) = 201).
Proof.
  unfold answer, final.
  destruct c as [salt req|clock req|id req|id req|uid tid req|uid tid req
                 |req|req|id req|id req|clock req]; cbn [handle reads_only].
  - destruct (cadastro_cases salt req d)
      as [[Hno Hsame]|(nome & email & s & _ & _ & _ & _ & _ & _ & _ & _ & Hok & _)];
      unfold answer, final in *.
    + split; [done|]. split; [done|]. intros Hlt. revert Hno Hlt.
      rewrite cadastro_run. cbv zeta. repeat case_match; cbn; lia.
    + rewrite Hok. split; [lia|]. split; [done|]. by right.
  - rewrite login_run. cbv zeta.
    repeat case_match; cbn; (split; [done|split; [done|]]); intros; lia.
  - rewrite get_usuario_tasks_run. cbn -[Nat.eqb].
    split; [done|]. split; [done|]. case_if; cbn; lia.
  - rewrite post_usuario_task_run. case_if; cbn; (split; [|split]); try done; lia.
  - rewrite put_usuario_task_run. repeat case_if; cbn; (split; [|split]); try done; lia.
  - rewrite delete_usuario_task_run. case_if; cbn; (split; [|split]); try done; lia.
  - rewrite post_tasks_run. case_if; cbn; (split; [|split]); try done; lia.
  - unfold get_tasks. run_pool. split; [done|]. split; [done|]. by left.
  - rewrite delete_task_run. cbn -[Nat.eqb].
    destruct (matched id (tasks d) =? 0)%nat eqn:Hmatched; cbn; (split; [|split]);
      try done; try lia.
    intros _. apply Nat.eqb_eq in Hmatched.
    rewrite filter_other_ids_absent by (by apply matched_zero). apply with_tasks_same.
  - destruct (body req !! "concluded") as [v|] eqn:Hv.
    + rewrite (patch_task_given _ _ _ v Hv). cbn -[Nat.eqb].
      destruct (matched id (tasks d) =? 0)%nat eqn:Hmatched; cbn; (split; [|split]);
        try done; try lia.
      intros _. apply Nat.eqb_eq in Hmatched.
      rewrite update_where_id_absent by (by apply matched_zero). apply with_tasks_same.
    + rewrite patch_task_absent by done. cbn. split; [done|]. split; [done|]. lia.
  - destruct (get_tasks_week_run clock req d) as [->|(startDate & _ & _ & ->)]; cbn;
      (split; [done|split; [done|]]); intros; lia.
Qed.

(** ** The week asked for *)

Lemma WeekDay_range (t : Z) : 0 ≤ WeekDay t ≤ 6.
Proof. unfold WeekDay. pose proof (Z.mod_pos_bound (Day t + 4) 7). lia. Qed.

Lemma getDay_range (d : Z) : 0 ≤ getDay d ≤ 6.
Proof. apply WeekDay_range. Qed.

(** Going back as many days as the weekday counts leads to a Sunday. *)
Lemma WeekDay_of_week_start (t : Z) : WeekDay (t - WeekDay t * MS_PER_DAY) = 0.
Proof.
  assert (Hday : Day (t - WeekDay t * MS_PER_DAY) = Day t - WeekDay t).
  { unfold Day at 1. replace (t - WeekDay t * MS_PER_DAY) with (t + - WeekDay t * MS_PER_DAY) by lia.
    rewrite Z.div_add by done. unfold Day. lia. }
  unfold WeekDay at 1. rewrite Hday. unfold WeekDay.
  set (x := Day t + 4).
  replace (Day t - x mod 7 + 4) with (x - x mod 7) by (subst x; lia).
  rewrite (Z.div_mod x 7) at 1 by done.
  replace (7 * (x / 7) + x mod 7 - x mod 7) with (x / 7 * 7) by lia.
  by apply Z.mod_mul.
Qed.

(** X9: with no [start] in the query, or an empty one, GET /tasks/week
    starts from now, moved back on the local calendar by as many days as
    [getDay] counts: a local Sunday, at the time of day it is now.  The
    range it asks the engine for goes from the UTC day of that instant to
    the UTC day of the instant six local calendar days after it.  When
    the process's zone keeps one offset, the start instant falls on a
    Sunday of the zone, the range is seven days, its first day is today's
    UTC day less the local weekday, and today's UTC day lies within it.
    With a [start] that is not a date, the handler answers 500 and asks
    the engine nothing. *)
Theorem week_without_start (clock : Z) (req : request) (d : db) :
  (query req !! "start" = None ∨ query req !! "start" = Some "" →
   let sunday := LocalTime clock - getDay clock * MS_PER_DAY in
   let startDate := setDate_plus clock (- getDay clock) in
   let lo := formatDate startDate in
   let hi := formatDate (setDate_plus startDate 6) in
   get_tasks_week clock req d
   = ({| status := 200; sent := Rows (filter (between lo hi) (tasks d)) |}, d,
      [Queried (SelectTasksBetween lo hi)])
   ∧ startDate = UTC sunday
   ∧ WeekDay sunday = 0
   ∧ TimeWithinDay sunday = TimeWithinDay (LocalTime clock)
   ∧ (fixed_offset →
      getDay startDate = 0
      ∧ hi = lo + 6
      ∧ lo = formatDate clock - getDay clock
      ∧ lo ≤ formatDate clock ≤ hi))
  ∧ (∀ s, query req !! "start" = Some s → s ≠ "" → Date_parse s = None →
     get_tasks_week clock req d
     = ({| status := 500; sent := Error "Erro ao buscar as tarefas da semana." |}, d, [])).
Proof.
  split.
  - intros Hstart sunday startDate lo hi.
    assert (Hsunday : sunday = LocalTime clock + - getDay clock * MS_PER_DAY)
      by (unfold sunday; lia).
    split; [|split; [|split; [|split]]].
    + unfold get_tasks_week.
      by destruct Hstart as [-> | ->]; cbn [String.eqb negb fmap option_fmap option_map].
    + unfold startDate, setDate_plus. cbv zeta. by rewrite MakeDate_plus, Hsunday.
    + apply WeekDay_of_week_start.
    + rewrite Hsunday. unfold TimeWithinDay. by apply Z.mod_add.
    + intros Hfixed.
      assert (Hinstant : startDate = clock + - getDay clock * MS_PER_DAY)
        by (by apply setDate_plus_fixed).
      assert (Hhi : hi = lo + 6) by (by apply formatDate_plus).
      assert (Hlo : lo = formatDate clock - getDay clock).
      { unfold lo, startDate. rewrite formatDate_plus by done. lia. }
      split; [|split; [exact Hhi|split; [exact Hlo|]]].
      * unfold getDay at 1, LocalTime. rewrite (Hfixed startDate true clock true), Hinstant.
        replace (clock + - getDay clock * MS_PER_DAY + LocalTZA clock true)
          with (LocalTime clock - WeekDay (LocalTime clock) * MS_PER_DAY)
          by (unfold getDay, LocalTime; lia).
        apply WeekDay_of_week_start.
      * pose proof (getDay_range clock). lia.
  - intros s Hs Hne Hparse. unfold get_tasks_week. rewrite Hs.
    apply String.eqb_neq in Hne. by rewrite Hne, Hparse.
Qed.

(** ** The users table *)

Lemma handle_usuario_auto c d :
  (∃ salt req, c = PostCadastro salt req)
  ∨ usuario_auto (final (handle c) d) = usuario_auto d.
Proof.
  destruct c as [salt req|clock req|id req|id req|uid tid req|uid tid req
                 |req|req|id req|id req|clock req];
    [left; by eauto|right..]; unfold final; cbn [handle].
  - rewrite login_run. cbv zeta. by repeat case_match.
  - by rewrite get_usuario_tasks_run.
  - rewrite post_usuario_task_run. by case_if.
  - rewrite put_usuario_task_run. by repeat case_if.
  - rewrite delete_usuario_task_run. by case_if.
  - rewrite post_tasks_run. by case_if.
  - done.
  - by rewrite delete_task_run.
  - destruct (body req !! "concluded") as [v|] eqn:Hv.
    + by rewrite (patch_task_given _ _ _ v Hv).
    + by rewrite patch_task_absent.
  - by destruct (get_tasks_week_run clock req d) as [->|(startDate & _ & _ & ->)].
Qed.

(** What a request does to the users: nothing, or, for a registration
    that is accepted, one row more: the name and e-mail of the body and
    the digest of its password, under the next id. *)
Lemma handle_usuario_cases c d :
  (usuario (final (handle c) d) = usuario d
   ∧ usuario_auto (final (handle c) d) = usuario_auto d)
  ∨ (∃ salt req nome email s,
       c = PostCadastro salt req
       ∧ body req !! "nome" = Some nome
       ∧ body req !! "email" = Some email
       ∧ body req !! "senha" = Some (JStr s)
       ∧ usuario (final (handle c) d)
         = usuario d ++ [Usuario.mk (usuario_auto d) nome email (JStr (bcrypt_hash s salt))]
       ∧ usuario_auto (final (handle c) d) = usuario_auto d + 1).
Proof.
  destruct (handle_usuario c d) as [(salt & req & ->)|Hsame].
  - cbn [handle].
    destruct (cadastro_cases salt req d)
      as [[_ ->]|(nome & email & s & Hnome & _ & Hemail & _ & Hsenha & _ & _ & _ & _ & ->)].
    + by left.
    + right. exists salt, req, nome, email, s. by repeat split.
  - left. split; [exact Hsame|].
    destruct (handle_usuario_auto c d) as [(salt & req & ->)|Hauto]; [|exact Hauto].
    cbn [handle] in Hsame |- *.
    destruct (cadastro_cases salt req d)
      as [[_ ->]|(nome & email & s & _ & _ & _ & _ & _ & _ & _ & _ & _ & Hfinal)];
      [done|].
    rewrite Hfinal in Hsame. cbn in Hsame.
    apply (f_equal length) in Hsame. rewrite length_app in Hsame. cbn in Hsame. lia.
Qed.



Lemma handle_keeps_usuario_ids_fresh c d :
  usuario_ids_fresh d → usuario_ids_fresh (final (handle c) d).
Proof.
  intros [Hnd Hlt]. unfold usuario_ids_fresh.
  destruct (handle_usuario_cases c d)
    as [[-> ->]|(salt & req & nome & email & s & _ & _ & _ & _ & -> & ->)]; [done|].
  split.
  - rewrite fmap_app. apply NoDup_app. split; [done|]. split; [|apply NoDup_singleton].
    intros i Hi Hin. apply list_elem_of_singleton in Hin. subst i.
    apply list_elem_of_fmap in Hi as (u & Heq & Hu). specialize (Hlt u Hu).
    cbn in Heq. lia.
  - intros u Hu. apply elem_of_app in Hu as [Hu|Hu].
    + specialize (Hlt u Hu). lia.
    + apply list_elem_of_singleton in Hu. subst u. cbn. lia.
Qed.

Lemma serve_keeps_usuario_ids_fresh history d :
  usuario_ids_fresh d → usuario_ids_fresh (serve history d).
Proof.
  revert d. induction history as [|c history IH]; intros d Hd; [done|].
  rewrite serve_cons. apply IH. by apply handle_keeps_usuario_ids_fresh.
Qed.

(** X11: no handler updates or deletes a user.  The users stored after a
    sequence of requests are still there, unchanged and in the same
    order, after any further requests; and from the empty store on, their
    ids are pairwise distinct and below the AUTO_INCREMENT counter. *)
Theorem users_are_kept (history further : list call) (d : db) :
  (∃ later, usuario (serve (history ++ further) d) = usuario (serve history d) ++ later)
  ∧ (∀ (i : nat) u, usuario (serve history d) !! i = Some u →
       usuario (serve (history ++ further) d) !! i = Some u)
  ∧ NoDup (Usuario.id <$> usuario (serve history empty_db))
  ∧ (∀ u, u ∈ usuario (serve history empty_db) →
       Usuario.id u < usuario_auto (serve history empty_db)).
Proof.
  assert (Hlater : ∃ later, usuario (serve (history ++ further) d)
                            = usuario (serve history d) ++ later).
  { rewrite serve_app. apply serve_extends. }
  split; [exact Hlater|]. split.
  - destruct Hlater as [later ->]. intros i u Hi. by apply lookup_app_l_Some.
  - apply serve_keeps_usuario_ids_fresh.
    split; [apply NoDup_nil_2|]. intros u Hu. by apply not_elem_of_nil in Hu.
Qed.

(** ** Fields that count as missing *)

Lemma falsy_values (v : jsval) :
  falsy (Some v) = true ↔ v = JNull ∨ v = JBool false ∨ v = JNum 0 ∨ v = JStr "".
Proof.
  split.
  - destruct v as [|[]|n|s]; cbn; try discriminate; try tauto.
    + intros Hn. apply negb_true_iff, negb_false_iff, Z.eqb_eq in Hn. subst n. tauto.
    + intros Hs. apply negb_true_iff, negb_false_iff, String.eqb_eq in Hs. subst s. tauto.
  - by intros [-> |[-> |[-> | ->]]].
Qed.

(** X12: a required field that is absent, or sent as null, false, 0 or
    the empty string, counts as missing: the creation of a task, the
    owner-scoped creation and update, the registration and the login
    answer 400, send no statement and leave the store as it was.  The
    completion flag alone is held to be given whenever it is defined:
    PATCH sends its UPDATE for any value of it, false and null
    included. *)
Theorem falsy_fields_are_missing
    (k : string) (salt : string) (clock id usuarioId taskId : Z) (req : request) (d : db) :
  falsy (body req !! k) = true →
  (body req !! k = None
   ∨ body req !! k = Some JNull ∨ body req !! k = Some (JBool false)
   ∨ body req !! k = Some (JNum 0) ∨ body req !! k = Some (JStr ""))
  ∧ (k ∈ ["text"; "date"; "priority"] →
     post_tasks req d
     = ({| status := 400;
           sent := Error "Faltam campos obrigatórios (text, date, priority)." |}, d, []))
  ∧ (k ∈ ["text"; "date"; "priority"; "folder"] →
     post_usuario_task id req d
     = ({| status := 400; sent := Message "Todos os campos são obrigatórios." |}, d, [])
     ∧ put_usuario_task usuarioId taskId req d
       = ({| status := 400; sent := Message "Todos os campos são obrigatórios." |}, d, []))
  ∧ (k ∈ ["nome"; "email"; "senha"; "confirmar_senha"] →
     cadastro salt req d
     = ({| status := 400; sent := Message "Todos os campos são obrigatórios." |}, d, []))
  ∧ (k ∈ ["email"; "senha"] →
     login clock req d
     = ({| status := 400; sent := Message "E-mail e senha são obrigatórios." |}, d, []))
  ∧ (∀ v, body req !! "concluded" = Some v →
     trace (patch_task id req) d = [Queried (UpdateConcluded v id)]).
Proof using bcrypt_hash bcrypt_compare jwt_mac.
  intros Hfalsy. split; [|split; [|split; [|split; [|split]]]].
  - destruct (body req !! k) as [v|] eqn:Hv; [right|by left].
    apply falsy_values in Hfalsy.
    destruct Hfalsy as [-> |[-> |[-> | ->]]];
      [by left|by right; left|by right; right; left|by right; right; right].
  - intros Hk. rewrite post_tasks_run.
    repeat (apply elem_of_cons in Hk as [-> |Hk]); [..|by apply not_elem_of_nil in Hk];
      by rewrite Hfalsy, ?orb_true_r.
  - intros Hk. rewrite post_usuario_task_run, put_usuario_task_run.
    repeat (apply elem_of_cons in Hk as [-> |Hk]); [..|by apply not_elem_of_nil in Hk];
      by rewrite Hfalsy, ?orb_true_r.
  - intros Hk. rewrite cadastro_run.
    repeat (apply elem_of_cons in Hk as [-> |Hk]); [..|by apply not_elem_of_nil in Hk];
      by rewrite Hfalsy, ?orb_true_r.
  - intros Hk. rewrite login_run.
    repeat (apply elem_of_cons in Hk as [-> |Hk]); [..|by apply not_elem_of_nil in Hk];
      by rewrite Hfalsy, ?orb_true_r.
  - intros v Hv. unfold trace. by rewrite (patch_task_given _ _ _ v Hv).
Qed.

(** ** What the answers give away *)

Lemma filter_email_nil (e : jsval) (d : db) :
  filter (λ u, Usuario.email u = e) (usuario d) = [] ↔ e ∉ emails d.
Proof.
  unfold emails. split.
  - intros Hnil Hin. apply list_elem_of_fmap in Hin as (u & -> & Hu).
    by apply (filter_nil_not_elem_of _ _ u Hnil).
  - intros Hnotin. apply filter_absent. intros u Hu Heq. apply Hnotin.
    rewrite <- Heq. by apply list_elem_of_fmap_2.
Qed.

(** X14: the answers tell whether an e-mail is registered.  A login that
    carries both fields is answered "E-mail não encontrado." exactly when
    no stored user has its e-mail (a wrong password gets another
    message), and a registration that passes the field checks is answered
    "E-mail já cadastrado." exactly when some stored user has its
    e-mail. *)
Theorem answers_reveal_registration
    (salt : string) (clock : Z) (req : request) (d : db) :
  (falsy (body req !! "email") = false → falsy (body req !! "senha") = false →
   (sent (answer (login clock req) d) = Message "E-mail não encontrado."
    ↔ val (body req !! "email") ∉ emails d))
  ∧ (registration_fields_given req →
     (sent (answer (cadastro salt req) d) = Message "E-mail já cadastrado."
      ↔ val (body req !! "email") ∈ emails d)).
Proof.
  split.
  - intros Hemail Hsenha. unfold answer. rewrite login_run, Hemail, Hsenha. cbn zeta. cbn [orb].
    rewrite <- filter_email_nil.
    destruct (filter _ (usuario d)) as [|u others]; [done|].
    split; [|done]. repeat case_match; cbn; discriminate.
  - intros Hgiven. apply registration_fields_given_check in Hgiven as [Hfields Hsame].
    unfold answer. rewrite cadastro_run, Hfields, Hsame. cbn zeta.
    destruct (decide (val (body req !! "email") ∈ emails d)) as [Hin|Hnotin].
    + destruct (filter (λ u, Usuario.email u = val (body req !! "email")) (usuario d))
        as [|u others] eqn:Hfound.
      * by apply filter_email_nil in Hfound.
      * done.
    + rewrite (proj2 (filter_email_nil _ _) Hnotin). cbn.
      split; [|done]. by case_match.
Qed.

(** ** One user's routes and the others' tasks *)

(** X15: when the ids of the tasks are distinct, the owner-scoped PUT and
    DELETE of a user touch nothing but that user's tasks: whatever the
    task id and the body, a task that refers to another user, or to none,
    stays the same row at the same place after the PUT, and is still
    stored after the DELETE. *)
Theorem owner_routes_spare_others
    (usuarioId taskId : Z) (req : request) (d : db) (i : nat) (t : Task.t) :
  NoDup (Task.id <$> tasks d) →
  tasks d !! i = Some t →
  Task.usuario_id t ≠ Some usuarioId →
  tasks (final (put_usuario_task usuarioId taskId req) d) !! i = Some t
  ∧ t ∈ tasks (final (delete_usuario_task usuarioId taskId req) d).
Proof.
  intros Hnd Hi Hother.
  assert (Ht : t ∈ tasks d) by (apply list_elem_of_lookup; eauto).
  unfold final. rewrite put_usuario_task_run, delete_usuario_task_run.
  destruct (filter (owned_by taskId usuarioId) (tasks d)) as [|t0 l] eqn:Hguard.
  { cbn. split; [|done]. by case_if. }
  assert (Ht0 : t0 ∈ filter (owned_by taskId usuarioId) (tasks d)) by (rewrite Hguard; left).
  apply list_elem_of_filter in Ht0 as [[Hid0 Hown0] Ht0].
  assert (Hne : Task.id t ≠ taskId).
  { intros Hid. apply list_elem_of_lookup in Ht0 as [j Hj].
    assert (i = j) as ->.
    { apply (NoDup_lookup _ _ _ (Task.id t) Hnd); rewrite list_lookup_fmap.
      - by rewrite Hi.
      - rewrite Hj. cbn. congruence. }
    congruence. }
  cbn. split.
  - case_if; [done|]. cbn. rewrite update_where_id_lookup, Hi. cbn.
    by rewrite decide_False.
  - by apply list_elem_of_filter.
Qed.

End Service.

(** * The properties on the stand-ins *)
Lemma demo_compare_hash (s salt : string) : demo_compare s (demo_hash s salt) = true.
Proof. unfold demo_compare, demo_hash. apply String.eqb_refl. Qed.

Lemma demo_hash_not_plain (s salt : string) : demo_hash s salt ≠ s.
Proof.
  unfold demo_hash. induction s as [|a s IH]; [discriminate|].
  intros [= <- H]. by apply IH.
Qed.

Lemma sample_cadastro_fields : registration_fields_given sample_cadastro.
Proof. by repeat split. Qed.

(** Ana registers twice. *)
Lemma second_registration_conflicts_witness :
  status (answer (cadastro demo_hash "s1" sample_cadastro) empty_db) = 201
  ∧ answer (cadastro demo_hash "s2" sample_cadastro)
      (final (cadastro demo_hash "s1" sample_cadastro) empty_db)
    = {| status := 400; sent := Message "E-mail já cadastrado." |}
  ∧ final (cadastro demo_hash "s2" sample_cadastro)
      (final (cadastro demo_hash "s1" sample_cadastro) empty_db)
    = final (cadastro demo_hash "s1" sample_cadastro) empty_db.
Proof.
  destruct (second_registration_conflicts demo_hash demo_compare demo_mac utc_midnight utc_zone
              "s1" "s2" sample_cadastro sample_cadastro empty_db []) as [H _].
  destruct (H eq_refl eq_refl) as (_ & Hsame & Hconflict).
  split; [reflexivity|]. split; [|exact Hsame].
  apply Hconflict, sample_cadastro_fields.
Defined.

(** Ana's password cell after her registration. *)
Lemma stored_hash_verifies_witness :
  status (answer (cadastro demo_hash "s1" sample_cadastro) empty_db) = 201
  ∧ ∃ hash,
      usuario (final (cadastro demo_hash "s1" sample_cadastro) empty_db)
      = [Usuario.mk 1 (JStr "Ana") (JStr "a@x.com") (JStr hash)]
      ∧ hash ≠ "secret"
      ∧ demo_compare "secret" hash = true.
Proof.
  destruct (stored_hash_verifies demo_hash demo_compare demo_compare_hash
              demo_hash_not_plain "s1" sample_cadastro empty_db
              (JStr "Ana") (JStr "a@x.com") "secret")
    as (Hok & hash & Hrow & _ & Hplain & _ & Hverify); try reflexivity.
  - intros u Hu. by apply not_elem_of_nil in Hu.
  - discriminate.
  - split; [exact Hok|]. exists hash. by repeat split.
Defined.

Lemma sample_registered :
  registered demo_hash demo_compare demo_mac utc_midnight utc_zone
    [PostCadastro "s1" sample_cadastro] (JStr "a@x.com") "secret".
Proof. exists [], "s1", sample_cadastro, []. by repeat split. Qed.

(** Ana logs in with her password, with a wrong one, and with an empty
    body. *)
Lemma login_outcomes_witness :
  let d := serve demo_hash demo_compare demo_mac utc_midnight utc_zone
             [PostCadastro "s1" sample_cadastro] empty_db in
  status (answer (login demo_compare demo_mac 5000 (sample_login "secret")) d) = 200
  ∧ (∃ token,
       token_field (answer (login demo_compare demo_mac 5000 (sample_login "secret")) d)
       = Some token)
  ∧ answer (login demo_compare demo_mac 5000 (sample_login "wrong")) d
    = {| status := 401; sent := Message "Senha incorreta." |}
  ∧ token_field (answer (login demo_compare demo_mac 5000 (sample_login "wrong")) d) = None
  ∧ status (answer (login demo_compare demo_mac 5000 (json_request ∅)) d) = 400.
Proof.
  intros d.
  destruct (login_outcomes demo_hash demo_compare demo_mac utc_midnight utc_zone demo_compare_hash
              5000 (sample_login "secret") d) as (_ & _ & _ & Hok).
  destruct (login_outcomes demo_hash demo_compare demo_mac utc_midnight utc_zone demo_compare_hash
              5000 (sample_login "wrong") d) as (_ & _ & Hwrong & _).
  destruct (login_outcomes demo_hash demo_compare demo_mac utc_midnight utc_zone demo_compare_hash
              5000 (json_request ∅) d) as (Hmissing & _).
  destruct (Hok _ _ _ sample_registered eq_refl eq_refl)
    as (Hstatus & token & _ & Htoken & _).
  destruct (Hwrong (Usuario.mk 1 (JStr "Ana") (JStr "a@x.com") (JStr (demo_hash "secret" "s1")))
              [] "wrong" (demo_hash "secret" "s1") eq_refl eq_refl)
    as [H401 Hnone]; try reflexivity; [discriminate|].
  split; [exact Hstatus|]. split; [by exists token|].
  split; [exact H401|]. split; [exact Hnone|].
  unfold answer. rewrite Hmissing; [reflexivity|]. by left.
Defined.

(** GET /tasks/week?start=2024-03-05 on a process in New York: the range
    ends on 2024-03-10, and the task dated 2024-03-11, six days after the
    start, is not listed.  On a process in UTC the same request is asked
    for up to 2024-03-11. *)
Lemma week_range_of_start_witness :
  query march_week !! "start" = Some "2024-03-05"
  ∧ iso_day "2024-03-05" = Some 19787
  ∧ utc_midnight "2024-03-05" = Some (19787 * MS_PER_DAY)
  ∧ get_tasks_week utc_midnight new_york_march_2024 0 march_week march_db
    = ({| status := 200; sent := Rows [dated 2 "2024-03-05"; dated 3 "2024-03-10"] |},
       march_db, [Queried (SelectTasksBetween 19787 19792)])
  ∧ iso_day "2024-03-11" = Some (19787 + 6)
  ∧ dated 4 "2024-03-11" ∈ tasks march_db
  ∧ (dated 4 "2024-03-11" ∉ filter (between 19787 19792) (tasks march_db))
  ∧ trace (get_tasks_week utc_midnight utc_zone 0 march_week) march_db
    = [Queried (SelectTasksBetween 19787 19793)].
Proof.
  assert (Hquery : query march_week !! "start" = Some "2024-03-05") by reflexivity.
  assert (Hday : iso_day "2024-03-05" = Some 19787) by reflexivity.
  assert (Hparse : utc_midnight "2024-03-05" = Some (19787 * MS_PER_DAY)) by reflexivity.
  assert (Hstored : dated 4 "2024-03-11" ∈ tasks march_db)
    by (do 3 apply list_elem_of_further; apply list_elem_of_here).
  destruct (week_range_of_start utc_midnight new_york_march_2024 0 march_week march_db
              "2024-03-05" 19787 Hquery Hday Hparse)
    as (Hrun & _ & _ & Hshort & _).
  destruct Hshort as [Hend Hout]; [by vm_compute|].
  destruct (week_range_of_start utc_midnight utc_zone 0 march_week march_db
              "2024-03-05" 19787 Hquery Hday Hparse)
    as (Hutc & _).
  split; [exact Hquery|]. split; [exact Hday|]. split; [exact Hparse|].
  split; [exact Hrun|]. split; [reflexivity|]. split; [exact Hstored|].
  split; [exact (Hout _ "2024-03-11" Hstored eq_refl eq_refl)|].
  unfold trace. by rewrite Hutc.
Defined.

(** A token issued at second 100: read back at once, forged, and read
    after its hour. *)
Lemma issued_token_verifies_witness :
  let token := Jwt.sign demo_mac sample_claims "seu_segredo" 3600 100 in
  Jwt.verify demo_mac token "seu_segredo" 100 = Jwt.Valid sample_claims
  ∧ Jwt.verify demo_mac (Jwt.mktoken (Jwt.signed token) "forged") "seu_segredo" 100
    = Jwt.Invalid
  ∧ Jwt.verify demo_mac token "seu_segredo" 3701 = Jwt.Invalid.
Proof.
  intros token.
  destruct (issued_token_verifies demo_mac sample_claims "seu_segredo" 100)
    as (Hnow & _ & _ & Hforged & Hexpired).
  split; [exact Hnow|]. split.
  - apply Hforged. discriminate.
  - apply Hexpired. lia.
Defined.

(** * The further properties on the samples *)

Lemma sample_task_stored : sample_task ∈ tasks sample_db.
Proof. by apply list_elem_of_singleton. Qed.

Lemma sample_update_fields : update_fields_given sample_update.
Proof. apply update_fields_given_check. reflexivity. Qed.

Lemma sample_db_ids_fresh : task_ids_fresh sample_db.
Proof.
  split; [apply NoDup_singleton|].
  intros t Ht. apply list_elem_of_singleton in Ht. by subst t.
Qed.

(** User 7 rewrites the sample task. *)
Lemma put_updates_owned_task_witness :
  update_fields_given sample_update
  ∧ sample_task ∈ tasks sample_db
  ∧ owned_by 5 7 sample_task
  ∧ tasks (final (put_usuario_task 7 5 sample_update) sample_db) !! 0%nat
    = Some (Task.mk 5 (JStr "ler") (JStr "2024-01-08") (JStr "baixa") (JStr "casa")
              (JBool true) (Some 7)).
Proof.
  assert (Hown : owned_by 5 7 sample_task) by done.
  destruct (put_updates_owned_task 7 5 sample_update sample_db sample_task
              sample_update_fields sample_task_stored Hown)
    as (_ & _ & _ & _ & _ & _ & Hrows).
  split; [exact sample_update_fields|]. split; [exact sample_task_stored|].
  split; [exact Hown|]. exact (Hrows 0%nat sample_task eq_refl).
Defined.

(** User 7 deletes the sample task, twice. *)
Lemma delete_removes_owned_task_witness :
  sample_task ∈ tasks sample_db
  ∧ owned_by 5 7 sample_task
  ∧ answer (delete_usuario_task 7 5 (json_request ∅)) sample_db
    = {| status := 200; sent := Message "Tarefa deletada com sucesso!" |}
  ∧ no_such_task 5 (final (delete_usuario_task 7 5 (json_request ∅)) sample_db).
Proof.
  assert (Hown : owned_by 5 7 sample_task) by done.
  destruct (delete_removes_owned_task 7 5 (json_request ∅) sample_db sample_task
              sample_task_stored Hown)
    as (Hok & _ & _ & _ & Hgone & _).
  split; [exact sample_task_stored|]. split; [exact Hown|]. by split.
Defined.

(** Two updates of the sample task by its owner. *)
Lemma last_write_wins_witness :
  final (put_usuario_task 7 5 sample_update)
    (final (put_usuario_task 7 5 sample_update) sample_db)
  = final (put_usuario_task 7 5 sample_update) sample_db
  ∧ final (patch_task 5 concluded_true) (final (patch_task 5 concluded_true) sample_db)
    = final (patch_task 5 concluded_true) sample_db.
Proof.
  destruct (last_write_wins 7 5 sample_update sample_update sample_db) as [_ Hput].
  destruct (last_write_wins 7 5 concluded_true concluded_true sample_db) as [Hpatch _].
  split.
  - by apply (Hput sample_task sample_update_fields sample_update_fields sample_task_stored).
  - by apply Hpatch.
Defined.

(** User 7 creates a second task, which gets the id 6. *)
Lemma created_task_is_owned_witness :
  create_fields_given sample_update
  ∧ answer (post_usuario_task 7 sample_update) sample_db
    = {| status := 201; sent := MessageTaskId "Tarefa criada com sucesso!" 6 |}
  ∧ status (answer (delete_usuario_task 7 6 (json_request ∅))
              (final (post_usuario_task 7 sample_update) sample_db)) = 200
  ∧ answer (delete_usuario_task 8 6 (json_request ∅))
      (final (post_usuario_task 7 sample_update) sample_db)
    = not_found_for_owner.
Proof.
  assert (Hgiven : create_fields_given sample_update) by (by repeat split).
  destruct (created_task_is_owned 7 sample_update sample_db Hgiven)
    as (Hok & _ & _ & _ & _ & Hdelete & _ & Hothers).
  split; [exact Hgiven|]. split; [exact Hok|]. split; [apply Hdelete|].
  by apply (Hothers sample_db_ids_fresh 8 (json_request ∅)).
Defined.

(** A task created without owner beside the sample task. *)
Lemma unowned_task_is_out_of_scope_witness :
  task_ids_fresh sample_db
  ∧ tasks (final (post_tasks sample_create) sample_db)
    = [sample_task; created_unowned sample_create sample_db]
  ∧ delete_usuario_task 7 6 (json_request ∅) (final (post_tasks sample_create) sample_db)
    = (not_found_for_owner, final (post_tasks sample_create) sample_db,
       [Queried (SelectTaskOwned 6 7)]).
Proof.
  destruct (unowned_task_is_out_of_scope sample_create sample_db sample_db_ids_fresh eq_refl)
    as (Htasks & _ & _ & Hscoped).
  split; [exact sample_db_ids_fresh|]. split; [exact Htasks|].
  by destruct (Hscoped 7 (json_request ∅)) as (_ & Hdelete & _).
Defined.

(** Monday 2024-01-08, 00:00 UTC, on a process in UTC: the week asked for
    begins on Sunday the 7th. *)
Lemma week_without_start_witness :
  query (json_request ∅) !! "start" = None
  ∧ fixed_offset utc_zone
  ∧ trace (get_tasks_week utc_midnight utc_zone 1704672000000 (json_request ∅))
      sample_db
    = [Queried (SelectTasksBetween 19729 19735)]
  ∧ getDay utc_zone
      (setDate_plus utc_zone 1704672000000 (- getDay utc_zone 1704672000000))
    = 0.
Proof.
  assert (Hzone : fixed_offset utc_zone) by (by intros t b t' b').
  destruct (week_without_start utc_midnight utc_zone 1704672000000 (json_request ∅)
              sample_db)
    as [Hdefault _].
  destruct (Hdefault (or_introl eq_refl)) as (Hrun & _ & _ & _ & Hfixed).
  destruct (Hfixed Hzone) as (Hsunday & _).
  split; [reflexivity|]. split; [exact Hzone|]. split; [|exact Hsunday].
  unfold trace. by rewrite Hrun.
Defined.


(** An empty folder on the owner-scoped creation, an empty password on the
    login. *)
Lemma falsy_fields_are_missing_witness :
  falsy (body (json_request {[ "folder" := JStr "" ]}) !! "folder") = true
  ∧ post_usuario_task 7 (json_request {[ "folder" := JStr "" ]}) sample_db
    = ({| status := 400; sent := Message "Todos os campos são obrigatórios." |}, sample_db, [])
  ∧ login demo_compare demo_mac 0 (sample_login "") sample_db
    = ({| status := 400; sent := Message "E-mail e senha são obrigatórios." |}, sample_db, []).
Proof.
  assert (Hfolder : falsy (body (json_request {[ "folder" := JStr "" ]}) !! "folder") = true)
    by reflexivity.
  assert (Hsenha : falsy (body (sample_login "") !! "senha") = true) by reflexivity.
  destruct (falsy_fields_are_missing demo_hash demo_compare demo_mac
              "folder" "s1" 0 7 7 5 (json_request {[ "folder" := JStr "" ]}) sample_db Hfolder)
    as (_ & _ & Hscoped & _).
  destruct (falsy_fields_are_missing demo_hash demo_compare demo_mac
              "senha" "s1" 0 7 7 5 (sample_login "") sample_db Hsenha)
    as (_ & _ & _ & _ & Hlogin & _).
  split; [exact Hfolder|]. split.
  - apply Hscoped. do 3 right. left.
  - apply Hlogin. right. left.
Defined.

(** Before anyone registered, a login and a registration of Ana. *)
Lemma answers_reveal_registration_witness :
  sent (answer (login demo_compare demo_mac 0 (sample_login "secret")) empty_db)
  = Message "E-mail não encontrado."
  ∧ sent (answer (cadastro demo_hash "s1" sample_cadastro) empty_db)
    ≠ Message "E-mail já cadastrado.".
Proof.
  destruct (answers_reveal_registration demo_hash demo_compare demo_mac
              "s1" 0 (sample_login "secret") empty_db) as [Hlogin _].
  destruct (answers_reveal_registration demo_hash demo_compare demo_mac
              "s1" 0 sample_cadastro empty_db) as [_ Hcadastro].
  split.
  - apply (Hlogin eq_refl eq_refl). apply not_elem_of_nil.
  - intros Hsent. apply (Hcadastro sample_cadastro_fields) in Hsent.
    by apply not_elem_of_nil in Hsent.
Defined.

(** User 8 rewrites and deletes task 6; the task of user 7 stays. *)
Lemma owner_routes_spare_others_witness :
  NoDup (Task.id <$> tasks shared_db)
  ∧ tasks shared_db !! 0%nat = Some sample_task
  ∧ status (answer (put_usuario_task 8 6 sample_update) shared_db) = 200
  ∧ tasks (final (put_usuario_task 8 6 sample_update) shared_db) !! 0%nat = Some sample_task
  ∧ sample_task ∈ tasks (final (delete_usuario_task 8 6 sample_update) shared_db).
Proof.
  assert (Hnd : NoDup (Task.id <$> tasks shared_db)).
  { apply NoDup_cons_2; [|apply NoDup_singleton].
    intros Hin. apply list_elem_of_singleton in Hin. discriminate. }
  assert (Hother : Task.usuario_id sample_task ≠ Some 8) by discriminate.
  destruct (owner_routes_spare_others 8 6 sample_update shared_db 0 sample_task
              Hnd eq_refl Hother) as [Hput Hdelete].
  split; [exact Hnd|]. split; [reflexivity|]. split; [reflexivity|]. by split.
Defined.

(** The listing of user 7 on the shared store, and that of a user with no
    task. *)
Lemma get_usuario_tasks_lists_own_witness :
  answer (get_usuario_tasks 7 (json_request ∅)) shared_db
  = {| status := 200; sent := Tasks [sample_task] |}
  ∧ answer (get_usuario_tasks 9 (json_request ∅)) shared_db
    = {| status := 404; sent := Message "Nenhuma tarefa encontrada para este usuário." |}.
Proof.
  destruct (get_usuario_tasks_lists_own 7 (json_request ∅) shared_db)
    as (_ & _ & _ & Hsome & _).
  destruct (get_usuario_tasks_lists_own 9 (json_request ∅) shared_db)
    as (_ & _ & Hnone & _).
  split.
  - destruct (Hsome sample_task) as (l & Hanswer & Hl & _);
      [by apply list_elem_of_here|done|].
    by rewrite Hanswer, Hl.
  - apply Hnone. intros t Ht.
    inversion Ht as [|? ? ? Ht']; subst; [done|].
    apply list_elem_of_singleton in Ht' as ->. done.
Defined.

(** User 8 asking to delete the task of user 7: 404, the store as it
    was. *)
Lemma failures_change_nothing_witness :
  let c := DeleteUsuarioTask 8 5 (json_request ∅) in
  status (answer (handle demo_hash demo_compare demo_mac utc_midnight utc_zone c) sample_db) = 404
  ∧ final (handle demo_hash demo_compare demo_mac utc_midnight utc_zone c) sample_db = sample_db.
Proof.
  intros c.
  destruct (failures_change_nothing demo_hash demo_compare demo_mac utc_midnight utc_zone
              c sample_db) as (Herror & _ & _).
  split; [reflexivity|]. apply Herror. by vm_compute.
Defined.

(** Ana's row stays where it is when a task is created after her
    registration. *)
Lemma users_are_kept_witness :
  let history := [PostCadastro "s1" sample_cadastro] in
  let further := [PostTasks sample_create] in
  let ana := Usuario.mk 1 (JStr "Ana") (JStr "a@x.com") (JStr (demo_hash "secret" "s1")) in
  usuario (serve demo_hash demo_compare demo_mac utc_midnight utc_zone history empty_db) !! 0%nat
  = Some ana
  ∧ usuario (serve demo_hash demo_compare demo_mac utc_midnight utc_zone (history ++ further)
               empty_db) !! 0%nat
    = Some ana.
Proof.
  intros history further ana.
  destruct (users_are_kept demo_hash demo_compare demo_mac utc_midnight utc_zone
              history further empty_db) as (_ & Hkept & _).
  assert (Hana : usuario (serve demo_hash demo_compare demo_mac utc_midnight utc_zone
                            history empty_db) !! 0%nat = Some ana) by reflexivity.
  split; [exact Hana|]. exact (Hkept 0%nat ana Hana).
Defined.
